(* Verification of the Space Invaders emulator core
   (src/space_invaders_core.c): port bridge, input latch, observation
   getters, configuration setters, reset, frame stepping and the binary
   save/load format. *)

From Stdlib Require Import ZArith Lia PrimFloat.
From stdpp Require Import base list.

Open Scope Z_scope.

(* ------------------------------------------------------------------ *)
(* Address space                                                       *)
(* ------------------------------------------------------------------ *)

Definition SI_RAM_START : Z := 0x2000.
Definition SI_RAM_SIZE : Z := 0x2000.
Definition ROM_SIZE : Z := 4 * 0x0800.

(** Modelled from the spec: readByte and writeByte of 8080Memory (not in
    the sources), over the two banks registered by si_init_with_config:
    a read-only ROM bank at 0x0000-0x1FFF and a read-write RAM bank at
    0x2000-0x3FFF. Reads outside every bank return 0x00; writes to the
    read-only bank or outside every bank are discarded. *)
Record Mem := mkMem { rom : list Z; ram : list Z }.

Definition readByte (m : Mem) (addr : Z) : Z :=
  if (0 <=? addr) && (addr <? ROM_SIZE) then default 0 (rom m !! Z.to_nat addr)
  else if (SI_RAM_START <=? addr) && (addr <? SI_RAM_START + SI_RAM_SIZE)
  then default 0 (ram m !! Z.to_nat (addr - SI_RAM_START))
  else 0.

Definition writeByte (value : Z) (addr : Z) (m : Mem) : Mem :=
  if (SI_RAM_START <=? addr) && (addr <? SI_RAM_START + SI_RAM_SIZE)
  then mkMem (rom m) (<[Z.to_nat (addr - SI_RAM_START) := value]> (ram m))
  else m.

(* ------------------------------------------------------------------ *)
(* Emulator state (space_invaders_core.h)                              *)
(* ------------------------------------------------------------------ *)

(* float speed_multiplier: a binary32 value; binary32 embeds exactly in
   binary64 and == on the embedded values agrees with binary32 ==, so a
   primitive float stands for it. *)
Record si_config_t := mk_config {
  headless : bool;
  speed_multiplier : float;
  uncapped : bool;
  dip_switches : list Z
}.

Record si_state_t := mk_state {
  screen_buf : list Z;
  shift_reg : Z;
  shift_offset : Z;
  input_state : Z;
  frame_count : Z;
  cycle_count : Z;
  initialized : bool;
  config : si_config_t
}.

Definition set_shift_reg (s : si_state_t) (r : Z) : si_state_t :=
  mk_state (screen_buf s) r (shift_offset s) (input_state s) (frame_count s)
    (cycle_count s) (initialized s) (config s).

Definition set_shift_offset (s : si_state_t) (o : Z) : si_state_t :=
  mk_state (screen_buf s) (shift_reg s) o (input_state s) (frame_count s)
    (cycle_count s) (initialized s) (config s).

Definition set_input_state (s : si_state_t) (i : Z) : si_state_t :=
  mk_state (screen_buf s) (shift_reg s) (shift_offset s) i (frame_count s)
    (cycle_count s) (initialized s) (config s).

Definition set_config (s : si_state_t) (c : si_config_t) : si_state_t :=
  mk_state (screen_buf s) (shift_reg s) (shift_offset s) (input_state s)
    (frame_count s) (cycle_count s) (initialized s) c.

(* ------------------------------------------------------------------ *)
(* Port I/O handlers                                                   *)
(* ------------------------------------------------------------------ *)

(* uint8_t si_port_in(int port) *)
Definition si_port_in (s : si_state_t) (port : Z) : Z :=
  if port =? 0 then default 0 (dip_switches (config s) !! 0%nat)
  else if port =? 1 then input_state s
  else if port =? 2 then default 0 (dip_switches (config s) !! 2%nat)
  else if port =? 3 then
    (* return si_state.shift_reg >> (8 - si_state.shift_offset); as uint8_t *)
    Z.land (Z.shiftr (shift_reg s) (8 - shift_offset s)) 0xFF
  else 0x00.

(* void si_port_out(int port, uint8_t value) *)
Definition si_port_out (s : si_state_t) (port value : Z) : si_state_t :=
  if port =? 2 then set_shift_offset s (Z.land value 7)
  else if port =? 4 then
    (* (shift_reg >> 8) | ((uint16_t)value << 8), stored in a uint16_t *)
    set_shift_reg s
      (Z.land (Z.lor (Z.shiftr (shift_reg s) 8) (Z.shiftl (Z.land value 0xFFFF) 8))
         0xFFFF)
  else s.

(** The port sequence of the shift-register round trip: OUT 2,k; OUT 4,v;
    IN 3. *)
Definition shift_roundtrip (s : si_state_t) (k v : Z) : Z :=
  si_port_in (si_port_out (si_port_out s 2 k) 4 v) 3.

(** The formula of the round trip as the claim words it:
    (v << k) >> 8 truncated to 8 bits. *)
Definition shift_claimed (k v : Z) : Z :=
  Z.land (Z.shiftr (Z.shiftl v k) 8) 0xFF.

Definition default_config : si_config_t :=
  mk_config false 1.0%float false [0x0E; 0x08; 0x00].

(** The port-bridge fields after si_init (other fields zero). *)
Definition init_state : si_state_t :=
  mk_state [] 0 0 0x08 0 0 true default_config.

Example port_in_unregistered : si_port_in init_state 7 = 0.
Proof. reflexivity. Qed.

Example shift_roundtrip_k7 : shift_roundtrip init_state 7 0xAA = 0x00.
Proof. reflexivity. Qed.

Example shift_roundtrip_k0 : shift_roundtrip init_state 0 0xAA = 0xAA.
Proof. reflexivity. Qed.

Lemma land_small (x n : Z) : 0 <= n -> 0 <= x < 2 ^ n -> Z.land x (Z.ones n) = x.
Proof. intros Hn Hx. rewrite Z.land_ones by lia. apply Z.mod_small. lia. Qed.

(** C1 (amended): from a shift register whose high byte is 0, writing
    offset k (0-7) to port 2 and byte v to port 4, a read of port 3
    returns v shifted left by k, truncated to 8 bits; this is the port-3
    contract (register << k) >> 8 for the register value v << 8. *)
Theorem shift_roundtrip_low_byte (s : si_state_t) (k v : Z) :
  0 <= k <= 7 -> 0 <= v <= 255 -> Z.shiftr (shift_reg s) 8 = 0 ->
  shift_roundtrip s k v = Z.land (Z.shiftl v k) 0xFF.
Proof.
  intros Hk Hv Hhi.
  unfold shift_roundtrip, si_port_out, si_port_in; simpl.
  assert (Ek : Z.land k 7 = k) by (apply (land_small k 3); lia).
  assert (Ev : Z.land v 0xFFFF = v) by (apply (land_small v 16); lia).
  rewrite Ek, Ev, Hhi, Z.lor_0_l.
  assert (Es : Z.land (Z.shiftl v 8) 0xFFFF = Z.shiftl v 8).
  { rewrite Z.shiftl_mul_pow2 by lia. apply (land_small _ 16); lia. }
  rewrite Es, Z.shiftr_div_pow2, !Z.shiftl_mul_pow2 by lia.
  replace (2 ^ 8) with (2 ^ k * 2 ^ (8 - k))
    by (rewrite <- Z.pow_add_r by lia; f_equal; lia).
  rewrite Z.mul_assoc, Z.div_mul by (apply Z.pow_nonzero; lia).
  reflexivity.
Qed.

Lemma shift_roundtrip_low_byte_witness :
  (0 <= 7 <= 7 /\ 0 <= 0xAA <= 255 /\ Z.shiftr (shift_reg init_state) 8 = 0) /\
  shift_roundtrip init_state 7 0xAA = Z.land (Z.shiftl 0xAA 7) 0xFF.
Proof.
  split; [repeat split; try lia; reflexivity |].
  apply shift_roundtrip_low_byte; [lia | lia | reflexivity].
Defined.

(** C1 (counterexample): with offset 0 and a write of 0xAA into a register
    whose high byte is 0, port 3 reads 0xAA, not the claimed 0x00. *)
Lemma shift_roundtrip_offset0_cex :
  Z.shiftr (shift_reg init_state) 8 = 0 /\
  shift_roundtrip init_state 0 0xAA = 0xAA /\ shift_claimed 0 0xAA = 0x00.
Proof. repeat split; reflexivity. Qed.

(* ------------------------------------------------------------------ *)
(* Memory read-after-write                                             *)
(* ------------------------------------------------------------------ *)

Definition ram_addr (a : Z) : Prop := SI_RAM_START <= a < SI_RAM_START + SI_RAM_SIZE.

Lemma readByte_writeByte_eq (m : Mem) (v a : Z) :
  ram_addr a -> length (ram m) = Z.to_nat SI_RAM_SIZE ->
  readByte (writeByte v a m) a = v.
Proof.
  unfold ram_addr, readByte, writeByte, SI_RAM_START, SI_RAM_SIZE, ROM_SIZE.
  intros Ha Hl.
  rewrite (proj2 (Z.leb_le 0x2000 a) (proj1 Ha)),
          (proj2 (Z.ltb_lt a (0x2000 + 0x2000)) (proj2 Ha)).
  replace ((0 <=? a) && (a <? 4 * 0x0800)) with false
    by (symmetry; apply andb_false_intro2, Z.ltb_ge; lia).
  simpl. rewrite list_lookup_insert_eq; [reflexivity |].
  simpl in Hl. rewrite Hl. lia.
Qed.

Lemma readByte_writeByte_ne (m : Mem) (v a b : Z) :
  a <> b -> readByte (writeByte v a m) b = readByte m b.
Proof.
  intros Hab. unfold writeByte.
  destruct ((SI_RAM_START <=? a) && (a <? SI_RAM_START + SI_RAM_SIZE)) eqn:Ea;
    [| reflexivity].
  unfold readByte; simpl.
  destruct ((0 <=? b) && (b <? ROM_SIZE)); [reflexivity |].
  destruct ((SI_RAM_START <=? b) && (b <? SI_RAM_START + SI_RAM_SIZE)) eqn:Eb;
    [| reflexivity].
  apply andb_prop in Ea as [Ea1 Ea2]; apply andb_prop in Eb as [Eb1 Eb2].
  apply Z.leb_le in Ea1, Eb1.
  rewrite list_lookup_insert_ne; [reflexivity | lia].
Qed.

Lemma length_writeByte (m : Mem) (v a : Z) :
  length (ram (writeByte v a m)) = length (ram m).
Proof.
  unfold writeByte. destruct (_ && _); [apply length_insert | reflexivity].
Qed.

(** Power-on memory: both banks zero-filled. *)
Definition zero_mem : Mem :=
  mkMem (replicate (Z.to_nat ROM_SIZE) 0) (replicate (Z.to_nat SI_RAM_SIZE) 0).

(* ------------------------------------------------------------------ *)
(* Input control                                                       *)
(* ------------------------------------------------------------------ *)

Definition SI_BTN_COIN : Z := Z.shiftl 1 0.
Definition SI_BTN_P2_START : Z := Z.shiftl 1 1.
Definition SI_BTN_P1_START : Z := Z.shiftl 1 2.
Definition SI_BTN_P1_FIRE : Z := Z.shiftl 1 4.
Definition SI_BTN_LEFT : Z := Z.shiftl 1 5.
Definition SI_BTN_RIGHT : Z := Z.shiftl 1 6.

(* void si_set_input(uint8_t buttons) *)
Definition si_set_input (s : si_state_t) (buttons : Z) : si_state_t :=
  set_input_state s (Z.lor (Z.land buttons 0x77) 0x08).

(* uint8_t si_get_input(void) *)
Definition si_get_input (s : si_state_t) : Z := input_state s.

(** The bits the input latch layout defines for buttons. *)
Definition button_bits : list Z := [0; 1; 2; 4; 5; 6].

(* ------------------------------------------------------------------ *)
(* Observation getters                                                 *)
(* ------------------------------------------------------------------ *)

(* int si_get_lives(void) *)
Definition si_get_lives (m : Mem) : Z :=
  let ships_remaining := readByte m 0x21FF in
  let player_alive := readByte m 0x20E7 in
  let total_lives := ships_remaining + (if player_alive =? 0 then 0 else 1) in
  if total_lives >? 6 then 0 else total_lives.

(* An out-parameter uint8_t *x: None is a NULL pointer, Some c a location
   currently holding c. A getter returns the new contents. *)
Definition store (p : option Z) (v : Z) : option Z := (fun _ => v) <$> p.

(* uint8_t si_get_player_shot(uint8_t *x, uint8_t *y) *)
Definition si_get_player_shot (m : Mem) (x y : option Z) : Z * option Z * option Z :=
  let status := readByte m 0x2025 in
  let x' := store x (readByte m 0x202A) in
  let y' := store y (readByte m 0x2029) in
  (status, x', y').

(* The three alien-shot getters share one shape, at their own addresses. *)
Definition alien_shot (yaddr xaddr : Z) (m : Mem) (x y : option Z) :
    Z * option Z * option Z :=
  let shot_y := readByte m yaddr in
  let shot_x := readByte m xaddr in
  (if negb (shot_y =? 0) then 1 else 0, store x shot_x, store y shot_y).

Definition si_get_rolling_shot := alien_shot 0x203D 0x203E.
Definition si_get_plunger_shot := alien_shot 0x204D 0x204E.
Definition si_get_squiggly_shot := alien_shot 0x205D 0x205E.

(** The vertical-position byte of each shot slot (obj1CoorYr for the
    player shot). *)
Definition player_shot_y (m : Mem) : Z := readByte m 0x2029.

(* bool si_get_ufo_active(uint8_t *x, uint8_t *y) *)
Definition si_get_ufo_active (m : Mem) (x y : option Z) : bool * option Z * option Z :=
  let active := negb (readByte m 0x2084 =? 0) in
  if active then (active, store x (readByte m 0x207C), store y (readByte m 0x207B))
  else (active, x, y).

(* ------------------------------------------------------------------ *)
(* Configuration                                                       *)
(* ------------------------------------------------------------------ *)

(* void si_set_speed(float multiplier) *)
Definition si_set_speed (s : si_state_t) (multiplier : float) : si_state_t :=
  let c := config s in
  let s1 := set_config s (mk_config (headless c) multiplier (uncapped c) (dip_switches c)) in
  if PrimFloat.eqb multiplier 0%float then
    let c1 := config s1 in
    set_config s1 (mk_config (headless c1) (speed_multiplier c1) true (dip_switches c1))
  else s1.

Example set_speed_zero_uncaps : uncapped (config (si_set_speed init_state 0%float)) = true.
Proof. reflexivity. Qed.

Example set_speed_two : uncapped (config (si_set_speed init_state 2%float)) = false.
Proof. reflexivity. Qed.

Example lives_2_1 :
  si_get_lives (writeByte 1 0x20E7 (writeByte 2 0x21FF zero_mem)) = 3.
Proof. vm_compute. reflexivity. Qed.

Lemma ram_addr_dec (a : Z) : SI_RAM_START <= a < SI_RAM_START + SI_RAM_SIZE -> ram_addr a.
Proof. auto. Qed.

Ltac ram_addr_tac := apply ram_addr_dec; unfold SI_RAM_START, SI_RAM_SIZE; lia.

(** C7: after si_set_input(b) the latch holds b masked to the button bits
    (0, 1, 2, 4, 5, 6) with bit 3 set, and si_get_input returns the latch
    verbatim; bit by bit, bit 3 is set, a button bit is b's bit and every
    other bit is clear. *)
Theorem set_input_latch (s : si_state_t) (b : Z) :
  input_state (si_set_input s b) =
    Z.lor (Z.land b (Z.lor SI_BTN_COIN (Z.lor SI_BTN_P2_START (Z.lor SI_BTN_P1_START
             (Z.lor SI_BTN_P1_FIRE (Z.lor SI_BTN_LEFT SI_BTN_RIGHT))))))
          (Z.shiftl 1 3) /\
  si_get_input (si_set_input s b) = input_state (si_set_input s b) /\
  (forall i : Z, Z.testbit (si_get_input (si_set_input s b)) i =
     (i =? 3) || (existsb (Z.eqb i) button_bits && Z.testbit b i)).
Proof.
  split; [reflexivity | split; [reflexivity |]].
  intros i. unfold si_get_input, si_set_input; simpl.
  rewrite Z.lor_spec, Z.land_spec.
  destruct (Z.lt_ge_cases i 0) as [Hneg | Hnn].
  { rewrite !Z.testbit_neg_r by exact Hneg.
    unfold button_bits; simpl.
    rewrite !(proj2 (Z.eqb_neq _ _)) by lia. reflexivity. }
  destruct (Z.lt_ge_cases i 8) as [Hlt | Hge].
  { generalize (Z.testbit b i) as tb; intros tb.
    assert (i = 0 \/ i = 1 \/ i = 2 \/ i = 3 \/ i = 4 \/ i = 5 \/ i = 6 \/ i = 7)
      as Hi by lia.
    destruct Hi as [-> | [-> | [-> | [-> | [-> | [-> | [-> | ->]]]]]]];
      destruct tb; reflexivity. }
  rewrite (Z.bits_above_log2 0x77 i), (Z.bits_above_log2 0x08 i)
    by (simpl; lia).
  unfold button_bits; simpl.
  rewrite !(proj2 (Z.eqb_neq _ _)) by lia.
  rewrite andb_false_r. reflexivity.
Qed.

(** C8: with reserve byte r at 0x21FF and alive byte a at 0x20E7,
    si_get_lives returns r + (1 if a <> 0 else 0) when that sum is at most
    6 and 0 above 6; reserve 2 alive 1 gives 3, reserve 6 alive 0 gives 6
    (not clamped), reserve 7 alive 0 gives 0. *)
Theorem get_lives_formula (m : Mem) :
  length (ram m) = Z.to_nat SI_RAM_SIZE ->
  (forall r a : Z,
     si_get_lives (writeByte a 0x20E7 (writeByte r 0x21FF m)) =
       (let t := r + (if a =? 0 then 0 else 1) in if t <=? 6 then t else 0)) /\
  si_get_lives (writeByte 1 0x20E7 (writeByte 2 0x21FF m)) = 3 /\
  si_get_lives (writeByte 0 0x20E7 (writeByte 6 0x21FF m)) = 6 /\
  si_get_lives (writeByte 0 0x20E7 (writeByte 7 0x21FF m)) = 0.
Proof.
  intros Hl.
  assert (Hgen : forall r a : Z,
     si_get_lives (writeByte a 0x20E7 (writeByte r 0x21FF m)) =
       (let t := r + (if a =? 0 then 0 else 1) in if t <=? 6 then t else 0)).
  { intros r a. unfold si_get_lives.
    rewrite readByte_writeByte_ne by lia.
    rewrite readByte_writeByte_eq by (exact Hl || ram_addr_tac).
    rewrite readByte_writeByte_eq
      by (ram_addr_tac || (rewrite length_writeByte; exact Hl)).
    simpl. set (t := r + _).
    rewrite Z.gtb_ltb.
    destruct (Z.ltb_spec 6 t), (Z.leb_spec t 6); lia. }
  split; [exact Hgen |].
  rewrite !Hgen. repeat split; reflexivity.
Qed.

Lemma get_lives_formula_witness :
  length (ram zero_mem) = Z.to_nat SI_RAM_SIZE /\
  si_get_lives (writeByte 1 0x20E7 (writeByte 2 0x21FF zero_mem)) = 3.
Proof.
  split; [reflexivity |].
  apply (get_lives_formula zero_mem). reflexivity.
Defined.

(** C5 (amended): the rolling, plunger and squiggly shot getters return 1
    exactly when their vertical-position byte (0x203D, 0x204D, 0x205D) is
    non-zero and 0 otherwise; the player-shot getter returns the player
    shot status byte at 0x2025 verbatim, whatever its vertical-position
    byte at 0x2029 holds. *)
Theorem shot_getters_active (m : Mem) (x y : option Z) :
  (si_get_player_shot m x y).1.1 = readByte m 0x2025 /\
  (si_get_rolling_shot m x y).1.1 = (if readByte m 0x203D =? 0 then 0 else 1) /\
  (si_get_plunger_shot m x y).1.1 = (if readByte m 0x204D =? 0 then 0 else 1) /\
  (si_get_squiggly_shot m x y).1.1 = (if readByte m 0x205D =? 0 then 0 else 1).
Proof.
  unfold si_get_rolling_shot, si_get_plunger_shot, si_get_squiggly_shot, alien_shot.
  simpl. repeat split; destruct (readByte m _ =? 0); reflexivity.
Qed.

(** C5 (counterexample): with the player shot's vertical-position byte at
    0x2029 set to 5 and its status byte 0, the player-shot getter reports
    inactive (0). *)
Lemma player_shot_y_nonzero_cex :
  player_shot_y (writeByte 5 0x2029 zero_mem) = 5 /\
  (si_get_player_shot (writeByte 5 0x2029 zero_mem) None None).1.1 = 0.
Proof. split; vm_compute; reflexivity. Qed.

(** C10: when the UFO-active byte at 0x2084 is zero, si_get_ufo_active
    returns false and leaves both output locations as they were; when it
    is non-zero it returns true and writes the bytes at 0x207C (x) and
    0x207B (y) into the (non-NULL) output locations. *)
Theorem ufo_active_outputs (m : Mem) (x y : option Z) :
  (readByte m 0x2084 = 0 -> si_get_ufo_active m x y = (false, x, y)) /\
  (readByte m 0x2084 <> 0 ->
   si_get_ufo_active m x y =
     (true, store x (readByte m 0x207C), store y (readByte m 0x207B))).
Proof.
  unfold si_get_ufo_active. split; intros H.
  - rewrite H. reflexivity.
  - rewrite (proj2 (Z.eqb_neq _ _) H). reflexivity.
Qed.

Lemma ufo_active_outputs_witness :
  si_get_ufo_active zero_mem (Some 3) (Some 4) = (false, Some 3, Some 4) /\
  si_get_ufo_active (writeByte 1 0x2084 zero_mem) (Some 3) None =
    (true, store (Some 3) (readByte (writeByte 1 0x2084 zero_mem) 0x207C),
     store None (readByte (writeByte 1 0x2084 zero_mem) 0x207B)).
Proof.
  split.
  - apply (proj1 (ufo_active_outputs zero_mem (Some 3) (Some 4))). vm_compute. reflexivity.
  - apply (proj2 (ufo_active_outputs (writeByte 1 0x2084 zero_mem) (Some 3) None)).
    vm_compute. discriminate.
Defined.

(** C9: si_set_speed(m) stores m as the speed multiplier and sets the
    uncapped flag exactly when m == 0.0; otherwise the uncapped flag, and in
    both cases every other field, is unchanged. *)
Theorem set_speed_effect (s : si_state_t) (mult : float) :
  si_set_speed s mult =
    set_config s (mk_config (headless (config s)) mult
                    (if PrimFloat.eqb mult 0%float then true else uncapped (config s))
                    (dip_switches (config s))).
Proof. unfold si_set_speed. destruct (PrimFloat.eqb mult 0%float); reflexivity. Qed.

Example set_speed_zero_not_pure :
  si_set_speed init_state 0%float <>
    set_config init_state (mk_config false 0%float false [0x0E; 0x08; 0x00]).
Proof. discriminate. Qed.

(* ------------------------------------------------------------------ *)
(* CPU state and reset                                                 *)
(* ------------------------------------------------------------------ *)

(** Modelled from the spec: the e8080 register file of 8080Core (not in
    the sources): six general registers and the accumulator, stack
    pointer, program counter, the five flags, interrupt enable, halted,
    and the memory and port-handler pointers (as opaque handles). *)
Record cpu8080 := mk_cpu {
  reg_a : Z; reg_b : Z; reg_c : Z; reg_d : Z; reg_e : Z; reg_h : Z; reg_l : Z;
  sp : Z; pc : Z;
  flag_s : bool; flag_z : bool; flag_p : bool; flag_cy : bool; flag_ac : bool;
  IE : Z; halt : bool;
  cpu_ram : Z; portIn : Z; portOut : Z
}.

(** Modelled from the spec: reset8080(pc) clears the whole e8080
    structure (registers, flags, interrupt enable, halted, pointers) and
    sets the program counter to the reset vector. *)
Definition reset8080 (vector : Z) : cpu8080 :=
  mk_cpu 0 0 0 0 0 0 0 0 vector false false false false false 0 false 0 0 0.

Definition with_pointers (c : cpu8080) (r pin pout : Z) : cpu8080 :=
  mk_cpu (reg_a c) (reg_b c) (reg_c c) (reg_d c) (reg_e c) (reg_h c) (reg_l c)
    (sp c) (pc c) (flag_s c) (flag_z c) (flag_p c) (flag_cy c) (flag_ac c)
    (IE c) (halt c) r pin pout.

Definition with_IE (c : cpu8080) (ie : Z) : cpu8080 :=
  mk_cpu (reg_a c) (reg_b c) (reg_c c) (reg_d c) (reg_e c) (reg_h c) (reg_l c)
    (sp c) (pc c) (flag_s c) (flag_z c) (flag_p c) (flag_cy c) (flag_ac c)
    ie (halt c) (cpu_ram c) (portIn c) (portOut c).

(** The whole machine: CPU (e8080), emulator state (si_state) and the
    address space. *)
Record machine := mk_machine { cpu : cpu8080; si : si_state_t; mem : Mem }.

(* for (addr = SI_RAM_START; addr < SI_RAM_START + SI_RAM_SIZE; addr++)
     writeByte(0x00, addr); *)
Fixpoint clear_ram (n : nat) (addr : Z) (m : Mem) : Mem :=
  match n with
  | O => m
  | S n' => clear_ram n' (addr + 1) (writeByte 0x00 addr m)
  end.

(* void si_reset(void) *)
Definition si_reset (w : machine) : machine :=
  let saved_ram := cpu_ram (cpu w) in
  let saved_portIn := portIn (cpu w) in
  let saved_portOut := portOut (cpu w) in
  let c := with_pointers (reset8080 0x0001) saved_ram saved_portIn saved_portOut in
  let s := si w in
  let s' := mk_state (screen_buf s) 0x0000 0 0x08 0 0 (initialized s) (config s) in
  let m' := clear_ram (Z.to_nat SI_RAM_SIZE) SI_RAM_START (mem w) in
  mk_machine (with_IE c 1) s' m'.

Lemma clear_ram_rom (n : nat) (addr : Z) (m : Mem) : rom (clear_ram n addr m) = rom m.
Proof.
  revert addr m. induction n as [| n IH]; intros addr m; [reflexivity |].
  simpl. rewrite IH. unfold writeByte. destruct (_ && _); reflexivity.
Qed.

Lemma clear_ram_lookup (n i j : nat) (m : Mem) :
  (i + n <= Z.to_nat SI_RAM_SIZE)%nat ->
  ram (clear_ram n (SI_RAM_START + Z.of_nat i) m) !! j =
    if decide (i <= j < i + n)%nat then (fun _ => 0) <$> ram m !! j else ram m !! j.
Proof.
  revert i m. induction n as [| n IH]; intros i m Hn; simpl.
  { destruct (decide _); [lia | reflexivity]. }
  replace (SI_RAM_START + Z.of_nat i + 1) with (SI_RAM_START + Z.of_nat (S i)) by lia.
  rewrite IH by lia.
  assert (Hw : ram (writeByte 0 (SI_RAM_START + Z.of_nat i) m) = <[i := 0]> (ram m)).
  { unfold writeByte, SI_RAM_START, SI_RAM_SIZE in *.
    replace ((0x2000 <=? 0x2000 + Z.of_nat i) && (0x2000 + Z.of_nat i <? 0x2000 + 0x2000))
      with true by (symmetry; apply andb_true_intro; split; [apply Z.leb_le | apply Z.ltb_lt];
                    simpl in Hn; lia).
    simpl. f_equal. lia. }
  rewrite Hw, list_lookup_insert.
  destruct (decide (i = j)) as [<- | Hij].
  - rewrite (decide_False (P := (S i <= i < S i + n)%nat)) by lia.
    rewrite (decide_True (P := (i <= i < i + S n)%nat)) by lia.
    destruct (decide (i = i /\ (i < length (ram m))%nat)) as [[_ Hlt] | Hn'].
    + destruct (lookup_lt_is_Some_2 (ram m) i Hlt) as [x Hx]. rewrite Hx. reflexivity.
    + assert (length (ram m) <= i)%nat.
      { destruct (Nat.lt_ge_cases i (length (ram m))); [exfalso; auto | auto]. }
      rewrite (proj2 (lookup_ge_None (ram m) i)) by lia. reflexivity.
  - rewrite (decide_False (P := (i = j /\ (i < length (ram m))%nat))) by tauto.
    destruct (decide (S i <= j < S i + n)%nat), (decide (i <= j < i + S n)%nat);
      reflexivity || lia.
Qed.

Lemma si_reset_cpu (w : machine) :
  cpu (si_reset w) =
    mk_cpu 0 0 0 0 0 0 0 0 0x0001 false false false false false 1 false
      (cpu_ram (cpu w)) (portIn (cpu w)) (portOut (cpu w)).
Proof. reflexivity. Qed.

(** C6 (amended): after si_reset the registers, stack pointer and flags
    are cleared, the program counter is the reset vector 0x0001, the
    halted flag is false, the interrupt-enable flag is SET to 1 (si_reset
    re-enables interrupts after reset8080), the memory and port pointers
    are kept, the RAM bank's bytes are all zero and the ROM bank is
    unchanged. *)
Theorem si_reset_state (w : machine) :
  length (ram (mem w)) = Z.to_nat SI_RAM_SIZE ->
  cpu (si_reset w) =
    mk_cpu 0 0 0 0 0 0 0 0 0x0001 false false false false false 1 false
      (cpu_ram (cpu w)) (portIn (cpu w)) (portOut (cpu w)) /\
  ram (mem (si_reset w)) = replicate (Z.to_nat SI_RAM_SIZE) 0 /\
  rom (mem (si_reset w)) = rom (mem w).
Proof.
  intros Hl. split; [apply si_reset_cpu |]. split.
  - apply list_eq. intros j. unfold si_reset. cbn [mem].
    replace SI_RAM_START with (SI_RAM_START + Z.of_nat 0) by lia.
    rewrite clear_ram_lookup by lia.
    destruct (decide (0 <= j < 0 + Z.to_nat SI_RAM_SIZE)%nat) as [Hj | Hj].
    + rewrite (proj2 (lookup_replicate _ 0 0 j)) by (split; [reflexivity | lia]).
      destruct (lookup_lt_is_Some_2 (ram (mem w)) j) as [x Hx]; [lia |].
      rewrite Hx. reflexivity.
    + rewrite (proj1 (lookup_replicate_None _ 0 j)) by lia.
      apply lookup_ge_None_2. lia.
  - unfold si_reset. cbn [mem]. apply clear_ram_rom.
Qed.

(** A machine right after si_init: zeroed CPU at the reset vector, the
    default emulator state and zero-filled banks. *)
Definition boot_machine : machine := mk_machine (reset8080 0x0001) init_state zero_mem.

Lemma si_reset_state_witness :
  length (ram (mem boot_machine)) = Z.to_nat SI_RAM_SIZE /\
  rom (mem (si_reset boot_machine)) = rom (mem boot_machine).
Proof.
  split; [reflexivity |].
  apply (si_reset_state boot_machine). reflexivity.
Defined.

(** C6 (counterexample): the interrupt-enable flag is 1, not cleared,
    right after si_reset. *)
Lemma si_reset_IE_cex : IE (cpu (si_reset boot_machine)) = 1.
Proof. rewrite si_reset_cpu. reflexivity. Qed.

(* ------------------------------------------------------------------ *)
(* Frame scheduler                                                     *)
(* ------------------------------------------------------------------ *)

(** The port handlers, the only path from the CPU engine into si_state,
    never touch the frame or cycle counters. *)
Lemma si_port_out_counters (s : si_state_t) (port value : Z) :
  frame_count (si_port_out s port value) = frame_count s /\
  cycle_count (si_port_out s port value) = cycle_count s.
Proof.
  unfold si_port_out. destruct (port =? 2); [split; reflexivity |].
  destruct (port =? 4); split; reflexivity.
Qed.

(** The calls si_step_frame makes into the CPU engine, with what each
    burst reported as consumed. *)
Inductive engine_call :=
  | CallEmulate (budget consumed : Z)
  | CallCauseInt (vector : Z).

Section Frame.

(* emulate8080 and causeInt (8080Core, not in the sources) are left
   abstract: the scheduler is verified for every CPU engine. A burst runs
   the program, which may write memory and reach si_state through
   si_port_in/si_port_out; an interrupt acts on the CPU and memory. *)
Variable emulate8080 : machine -> Z -> machine * Z.
Variable causeInt : cpu8080 -> Mem -> Z -> cpu8080 * Mem.

(* A burst reaches si_state only through the port handlers, so it keeps
   the counters (see si_port_out_counters). *)
Hypothesis emulate8080_counters : forall w n,
  frame_count (si (emulate8080 w n).1) = frame_count (si w) /\
  cycle_count (si (emulate8080 w n).1) = cycle_count (si w).

Definition interrupt (w : machine) (vector : Z) : machine :=
  let '(c, m) := causeInt (cpu w) (mem w) vector in mk_machine c (si w) m.

(* int si_step_frame(void): the new machine, the returned cycle count and
   the engine calls in order. *)
Definition si_step_frame (w : machine) : machine * Z * list engine_call :=
  let half_frame_cycles := 17066 in
  let '(w1, cycles1) := emulate8080 w half_frame_cycles in
  let w2 := interrupt w1 8 in
  let '(w3, cycles2) := emulate8080 w2 half_frame_cycles in
  let w4 := interrupt w3 16 in
  let s := si w4 in
  let s' := mk_state (screen_buf s) (shift_reg s) (shift_offset s) (input_state s)
              (Z.modulo (frame_count s + 1) (2 ^ 32))
              (Z.modulo (cycle_count s + (cycles1 + cycles2)) (2 ^ 64))
              (initialized s) (config s) in
  (mk_machine (cpu w4) s' (mem w4), cycles1 + cycles2,
   [CallEmulate half_frame_cycles cycles1; CallCauseInt 8;
    CallEmulate half_frame_cycles cycles2; CallCauseInt 16]).

(** C4: every si_step_frame runs burst 1, interrupt 0x08, burst 2,
    interrupt 0x10, each exactly once and in that order; it increments
    the uint32 frame counter by 1, adds the two bursts' consumed cycles to
    the uint64 cycle counter, and returns that sum. *)
Theorem step_frame_schedule (w : machine) :
  exists c1 c2 : Z,
    (si_step_frame w).2 =
      [CallEmulate 17066 c1; CallCauseInt 8; CallEmulate 17066 c2; CallCauseInt 16] /\
    c1 = (emulate8080 w 17066).2 /\
    (si_step_frame w).1.2 = c1 + c2 /\
    frame_count (si (si_step_frame w).1.1) = (frame_count (si w) + 1) mod 2 ^ 32 /\
    cycle_count (si (si_step_frame w).1.1) = (cycle_count (si w) + (c1 + c2)) mod 2 ^ 64.
Proof.
  unfold si_step_frame.
  destruct (emulate8080 w 17066) as [w1 c1] eqn:E1.
  destruct (emulate8080_counters w 17066) as [F1 K1]. rewrite E1 in F1, K1. simpl in F1, K1.
  destruct (emulate8080 (interrupt w1 8) 17066) as [w3 c2] eqn:E3.
  destruct (emulate8080_counters (interrupt w1 8) 17066) as [F3 K3].
  rewrite E3 in F3, K3. simpl in F3, K3.
  exists c1, c2. simpl.
  unfold interrupt in F3, K3 |- *.
  destruct (causeInt (cpu w1) (mem w1) 8) as [ca ma].
  destruct (causeInt (cpu w3) (mem w3) 16) as [cb mb]. simpl in F3, K3 |- *.
  rewrite F3, K3, F1, K1. repeat split; reflexivity.
Qed.

End Frame.

(** An idle engine: a burst consumes its whole budget and changes nothing,
    an interrupt is dropped. *)
Definition idle_emulate (w : machine) (n : Z) : machine * Z := (w, n).
Definition idle_causeInt (c : cpu8080) (m : Mem) (vector : Z) : cpu8080 * Mem := (c, m).

Lemma step_frame_schedule_witness :
  exists c1 c2 : Z,
    (si_step_frame idle_emulate idle_causeInt boot_machine).2 =
      [CallEmulate 17066 c1; CallCauseInt 8; CallEmulate 17066 c2; CallCauseInt 16] /\
    c1 = (idle_emulate boot_machine 17066).2 /\
    (si_step_frame idle_emulate idle_causeInt boot_machine).1.2 = c1 + c2 /\
    frame_count (si (si_step_frame idle_emulate idle_causeInt boot_machine).1.1) =
      (frame_count (si boot_machine) + 1) mod 2 ^ 32 /\
    cycle_count (si (si_step_frame idle_emulate idle_causeInt boot_machine).1.1) =
      (cycle_count (si boot_machine) + (c1 + c2)) mod 2 ^ 64.
Proof.
  apply (step_frame_schedule idle_emulate idle_causeInt).
  intros w n. split; reflexivity.
Defined.

(* ------------------------------------------------------------------ *)
(* State persistence                                                   *)
(* ------------------------------------------------------------------ *)

Lemma writeByte_ram_index (v : Z) (i : nat) (m : Mem) :
  (i < Z.to_nat SI_RAM_SIZE)%nat ->
  writeByte v (SI_RAM_START + Z.of_nat i) m = mkMem (rom m) (<[i := v]> (ram m)).
Proof.
  intros Hi. unfold writeByte, SI_RAM_START, SI_RAM_SIZE in *.
  replace ((0x2000 <=? 0x2000 + Z.of_nat i) && (0x2000 + Z.of_nat i <? 0x2000 + 0x2000))
    with true by (symmetry; apply andb_true_intro; split; [apply Z.leb_le | apply Z.ltb_lt];
                  simpl in Hi; lia).
  f_equal. f_equal. lia.
Qed.

Lemma readByte_ram_index (i : nat) (m : Mem) :
  (i < Z.to_nat SI_RAM_SIZE)%nat ->
  readByte m (SI_RAM_START + Z.of_nat i) = default 0 (ram m !! i).
Proof.
  intros Hi. unfold readByte, SI_RAM_START, SI_RAM_SIZE, ROM_SIZE in *.
  replace ((0 <=? 0x2000 + Z.of_nat i) && (0x2000 + Z.of_nat i <? 4 * 0x0800))
    with false by (symmetry; apply andb_false_intro2, Z.ltb_ge; lia).
  replace ((0x2000 <=? 0x2000 + Z.of_nat i) && (0x2000 + Z.of_nat i <? 0x2000 + 0x2000))
    with true by (symmetry; apply andb_true_intro; split; [apply Z.leb_le | apply Z.ltb_lt];
                  simpl in Hi; lia).
  do 3 f_equal. lia.
Qed.

(** fwrite and fread copy e8080 and si_state as raw object
    representations, so persistence sees the live state as those bytes
    plus the address space. *)
Record live := mk_live { e8080_bytes : list Z; si_state_bytes : list Z; live_mem : Mem }.

(* const char magic[] = "SI80" *)
Definition magic_SI80 : list Z := [0x53; 0x49; 0x38; 0x30].

(* A uint32_t as its 4 bytes in memory (little-endian target). *)
Definition le32 (n : Z) : list Z :=
  [n mod 256; (n / 256) mod 256; (n / 65536) mod 256; (n / 16777216) mod 256].

Definition le32_value (bs : list Z) : Z :=
  match bs with
  | [b0; b1; b2; b3] => b0 + 256 * b1 + 65536 * b2 + 16777216 * b3
  | _ => 0
  end.

(* The RAM loop of si_save_state: one readByte per address. *)
Fixpoint save_ram (n : nat) (addr : Z) (m : Mem) : list Z :=
  match n with
  | O => []
  | S n' => readByte m addr :: save_ram n' (addr + 1) m
  end.

(* fread(ptr, n, 1, fp) == 1 for a whole block, else a short read. *)
Definition fread_block (n : nat) (bs : list Z) : option (list Z * list Z) :=
  if decide (n <= length bs)%nat then Some (take n bs, drop n bs) else None.

(* fread into a live object: on a short read the bytes that were there are
   copied over the front of the object (glibc) and the file is at its end. *)
Definition fread_into (n : nat) (dest bs : list Z) : bool * list Z * list Z :=
  if decide (n <= length bs)%nat then (true, take n bs, drop n bs)
  else (false, bs ++ drop (length bs) dest, []).

(* The RAM loop of si_load_state: fread one byte, writeByte it, until a
   byte is missing. *)
Fixpoint load_ram (n : nat) (addr : Z) (bs : list Z) (m : Mem) : bool * Mem :=
  match n with
  | O => (true, m)
  | S n' =>
      match bs with
      | [] => (false, m)
      | b :: bs' => load_ram n' (addr + 1) bs' (writeByte b addr m)
      end
  end.

Section Persist.

(* sizeof(e8080) and sizeof(si_state): fixed by the target ABI. *)
Variables sizeof_e8080 sizeof_si_state : nat.

(* int si_save_state(const char *filename): the bytes written, when the
   file opens. *)
Definition si_save_state (l : live) : list Z :=
  magic_SI80 ++ le32 1 ++ e8080_bytes l ++ si_state_bytes l ++
  save_ram (Z.to_nat SI_RAM_SIZE) SI_RAM_START (live_mem l).

(* int si_load_state(const char *filename): None is a file that does not
   open. Returns the status and the live state afterwards. *)
Definition si_load_state (file : option (list Z)) (l : live) : Z * live :=
  match file with
  | None => (-1, l)
  | Some bs =>
    match fread_block 4 bs with
    | None => (-1, l)
    | Some (magic, bs1) =>
      if negb (bool_decide (magic = magic_SI80)) then (-1, l) else
      match fread_block 4 bs1 with
      | None => (-1, l)
      | Some (version, bs2) =>
        if negb (le32_value version =? 1) then (-1, l) else
        let '(ok1, cpu', bs3) := fread_into sizeof_e8080 (e8080_bytes l) bs2 in
        let l1 := mk_live cpu' (si_state_bytes l) (live_mem l) in
        if negb ok1 then (-1, l1) else
        let '(ok2, st', bs4) := fread_into sizeof_si_state (si_state_bytes l1) bs3 in
        let l2 := mk_live cpu' st' (live_mem l1) in
        if negb ok2 then (-1, l2) else
        let '(ok3, m') := load_ram (Z.to_nat SI_RAM_SIZE) SI_RAM_START bs4 (live_mem l2) in
        (if ok3 then 0 else -1, mk_live cpu' st' m')
      end
    end
  end.

End Persist.

Lemma fread_block_app (n : nat) (a b : list Z) :
  length a = n -> fread_block n (a ++ b) = Some (a, b).
Proof.
  intros <-. unfold fread_block. rewrite decide_True by (rewrite length_app; lia).
  rewrite take_app_length, drop_app_length. reflexivity.
Qed.

Lemma fread_into_app (n : nat) (d a b : list Z) :
  length a = n -> fread_into n d (a ++ b) = (true, a, b).
Proof.
  intros <-. unfold fread_into. rewrite decide_True by (rewrite length_app; lia).
  rewrite take_app_length, drop_app_length. reflexivity.
Qed.

(** Loading n saved RAM bytes from index i: every byte lands at its
    index, the ROM bank is untouched. *)
Lemma load_save_ram (n i : nat) (m m0 : Mem) (rest : list Z) :
  (i + n <= Z.to_nat SI_RAM_SIZE)%nat -> length (ram m0) = Z.to_nat SI_RAM_SIZE ->
  let r := load_ram n (SI_RAM_START + Z.of_nat i)
             (save_ram n (SI_RAM_START + Z.of_nat i) m ++ rest) m0 in
  r.1 = true /\ rom r.2 = rom m0 /\
  (forall j : nat, ram r.2 !! j =
     if decide (i <= j < i + n)%nat then Some (default 0 (ram m !! j)) else ram m0 !! j).
Proof.
  revert i m0. induction n as [| n IH]; intros i m0 Hn Hl r.
  { subst r. cbn. split; [reflexivity | split; [reflexivity |]].
    intros j. destruct (decide _); [lia | reflexivity]. }
  subst r. cbn [save_ram load_ram app].
  replace (SI_RAM_START + Z.of_nat i + 1) with (SI_RAM_START + Z.of_nat (S i)) by lia.
  rewrite writeByte_ram_index by lia.
  rewrite readByte_ram_index by lia.
  destruct (IH (S i) (mkMem (rom m0) (<[i := default 0 (ram m !! i)]> (ram m0))))
    as [Hok [Hrom Hlk]]; [lia | cbn; rewrite length_insert; exact Hl |].
  split; [exact Hok | split; [exact Hrom |]].
  intros j. rewrite Hlk. cbn [ram]. rewrite list_lookup_insert.
  destruct (decide (i = j)) as [<- | Hij].
  - rewrite (decide_False (P := (S i <= i < S i + n)%nat)) by lia.
    rewrite (decide_True (P := (i <= i < i + S n)%nat)) by lia.
    rewrite decide_True by (split; [reflexivity | lia]). reflexivity.
  - rewrite (decide_False (P := (i = j /\ (i < length (ram m0))%nat))) by tauto.
    destruct (decide (S i <= j < S i + n)%nat), (decide (i <= j < i + S n)%nat);
      reflexivity || lia.
Qed.

Lemma save_ram_length (n : nat) (addr : Z) (m : Mem) : length (save_ram n addr m) = n.
Proof. revert addr. induction n; intros addr; simpl; [reflexivity | rewrite IHn; reflexivity]. Qed.

(** C3: saving a live state (whose objects have their sizeof and whose RAM
    bank its 0x2000 bytes) and loading the written bytes into any live
    state of the same shape succeeds and reproduces the CPU state and the
    emulator state (shift register, input latch, frame and cycle counters,
    configuration) byte for byte and the RAM bank byte for byte; the ROM
    bank is not part of the blob and stays as it was. *)
Theorem save_load_roundtrip (cs ss : nat) (l l0 : live) :
  length (e8080_bytes l) = cs -> length (si_state_bytes l) = ss ->
  length (ram (live_mem l)) = Z.to_nat SI_RAM_SIZE ->
  length (ram (live_mem l0)) = Z.to_nat SI_RAM_SIZE ->
  si_load_state cs ss (Some (si_save_state l)) l0 =
    (0, mk_live (e8080_bytes l) (si_state_bytes l)
          (mkMem (rom (live_mem l0)) (ram (live_mem l)))).
Proof.
  intros Hc Hs Hr Hr0. unfold si_load_state, si_save_state.
  rewrite fread_block_app by reflexivity. cbv beta iota.
  rewrite bool_decide_eq_true_2 by reflexivity. cbn [negb].
  rewrite fread_block_app by reflexivity. cbv beta iota.
  change (le32_value (le32 1) =? 1) with true. cbn [negb].
  rewrite fread_into_app by exact Hc. cbv beta iota. cbn [negb].
  rewrite fread_into_app by exact Hs. cbv beta iota. cbn [negb live_mem].
  rewrite <- (app_nil_r (save_ram _ _ (live_mem l))).
  pose proof (load_save_ram (Z.to_nat SI_RAM_SIZE) 0 (live_mem l) (live_mem l0) []) as H.
  replace (SI_RAM_START + Z.of_nat 0) with SI_RAM_START in H by lia.
  destruct H as [Hok [Hrom Hlk]]; [lia | exact Hr0 |].
  destruct (load_ram _ _ _ _) as [ok m'] eqn:E. cbn in Hok, Hrom, Hlk. subst ok.
  do 2 f_equal. destruct m' as [rom' ram']. cbn in Hrom |- *. subst rom'. f_equal.
  apply list_eq. intros j. rewrite Hlk.
  destruct (decide (0 <= j < Z.to_nat SI_RAM_SIZE)%nat).
  - destruct (lookup_lt_is_Some_2 (ram (live_mem l)) j) as [x Hx]; [lia |].
    rewrite Hx. reflexivity.
  - rewrite !(proj2 (lookup_ge_None _ _)) by lia. reflexivity.
Qed.

Lemma save_load_roundtrip_witness :
  si_load_state 2 3 (Some (si_save_state (mk_live [1; 2] [3; 4; 5] zero_mem)))
    (mk_live [] [] zero_mem) =
  (0, mk_live [1; 2] [3; 4; 5] (mkMem (rom zero_mem) (ram zero_mem))).
Proof. apply save_load_roundtrip; reflexivity. Defined.

(** A RAM section cut short after the bytes bs: the loop fails, having
    written bs at their indices. *)
Lemma load_ram_short (bs : list Z) (n i : nat) (m0 : Mem) :
  (i + n <= Z.to_nat SI_RAM_SIZE)%nat -> (length bs < n)%nat ->
  length (ram m0) = Z.to_nat SI_RAM_SIZE ->
  let r := load_ram n (SI_RAM_START + Z.of_nat i) bs m0 in
  r.1 = false /\ rom r.2 = rom m0 /\
  (forall j : nat, ram r.2 !! j =
     if decide (i <= j < i + length bs)%nat then bs !! (j - i)%nat else ram m0 !! j).
Proof.
  revert n i m0. induction bs as [| b bs IH]; intros n i m0 Hn Hlen Hl r;
    (destruct n as [| n]; [cbn in Hlen; lia |]).
  { subst r. cbn. split; [reflexivity | split; [reflexivity |]].
    intros j. destruct (decide _); [lia | reflexivity]. }
  subst r. cbn [load_ram].
  replace (SI_RAM_START + Z.of_nat i + 1) with (SI_RAM_START + Z.of_nat (S i)) by lia.
  rewrite writeByte_ram_index by lia.
  destruct (IH n (S i) (mkMem (rom m0) (<[i := b]> (ram m0))))
    as [Hok [Hrom Hlk]]; [lia | cbn in Hlen; lia | cbn; rewrite length_insert; exact Hl |].
  split; [exact Hok | split; [exact Hrom |]].
  intros j. rewrite Hlk. cbn [ram length]. rewrite list_lookup_insert.
  destruct (decide (i = j)) as [<- | Hij].
  - rewrite (decide_False (P := (S i <= i < S i + length bs)%nat)) by lia.
    rewrite (decide_True (P := (i <= i < i + S (length bs))%nat)) by lia.
    rewrite Nat.sub_diag.
    rewrite decide_True by (split; [reflexivity | lia]). reflexivity.
  - rewrite (decide_False (P := (i = j /\ (i < length (ram m0))%nat))) by tauto.
    destruct (decide (S i <= j < S i + length bs)%nat),
             (decide (i <= j < i + S (length bs))%nat); try lia; [| reflexivity].
    replace (j - i)%nat with (S (j - S i)) by lia. reflexivity.
Qed.

(** A blob whose header, CPU section and emulator-state section are whole
    but whose RAM section stops after the bytes pre: the load fails with the
    CPU state and emulator state already replaced and pre written over the
    front of the RAM bank. *)
Lemma load_state_ram_truncated (cs ss : nat) (l : live) (c st pre : list Z) :
  length c = cs -> length st = ss -> (length pre < Z.to_nat SI_RAM_SIZE)%nat ->
  length (ram (live_mem l)) = Z.to_nat SI_RAM_SIZE ->
  si_load_state cs ss (Some (magic_SI80 ++ le32 1 ++ c ++ st ++ pre)) l =
    (-1, mk_live c st (mkMem (rom (live_mem l)) (pre ++ drop (length pre) (ram (live_mem l))))).
Proof.
  intros Hc Hs Hpre Hr. unfold si_load_state.
  rewrite fread_block_app by reflexivity. cbv beta iota.
  rewrite bool_decide_eq_true_2 by reflexivity. cbn [negb].
  rewrite fread_block_app by reflexivity. cbv beta iota.
  change (le32_value (le32 1) =? 1) with true. cbn [negb].
  rewrite fread_into_app by exact Hc. cbv beta iota. cbn [negb].
  rewrite fread_into_app by exact Hs. cbv beta iota. cbn [negb live_mem].
  pose proof (load_ram_short pre (Z.to_nat SI_RAM_SIZE) 0 (live_mem l)) as H.
  replace (SI_RAM_START + Z.of_nat 0) with SI_RAM_START in H by lia.
  destruct H as [Hok [Hrom Hlk]]; [lia | exact Hpre | exact Hr |].
  destruct (load_ram _ _ _ _) as [ok m'] eqn:E. cbn in Hok, Hrom, Hlk. subst ok.
  do 2 f_equal. destruct m' as [rom' ram']. cbn in Hrom |- *. subst rom'. f_equal.
  apply list_eq. intros j. rewrite Hlk.
  destruct (decide (0 <= j < length pre)%nat).
  - rewrite lookup_app_l by lia. rewrite Nat.sub_0_r. reflexivity.
  - rewrite lookup_app_r by lia. rewrite lookup_drop. f_equal. lia.
Qed.

(** C2 (amended): si_load_state leaves the live state untouched when the
    file does not open, when its magic is not "SI80" (or is short), and
    when its version is missing or not 1. A failure found after the header
    is not rolled back: a file cut short inside the CPU section leaves the
    bytes read so far copied over the front of the CPU state; one cut
    short inside the emulator-state section leaves the CPU state replaced
    by the file's and the bytes read so far copied over the front of the
    emulator state; one cut short inside the RAM section leaves the CPU
    state and the emulator state replaced by the file's and the RAM bytes
    read so far written. *)
Theorem load_state_failure (cs ss : nat) (l : live) :
  si_load_state cs ss None l = (-1, l) /\
  (forall bs, take 4 bs <> magic_SI80 -> si_load_state cs ss (Some bs) l = (-1, l)) /\
  (forall rest, (length rest < 4)%nat ->
     si_load_state cs ss (Some (magic_SI80 ++ rest)) l = (-1, l)) /\
  (forall v rest, length v = 4%nat -> le32_value v <> 1 ->
     si_load_state cs ss (Some (magic_SI80 ++ v ++ rest)) l = (-1, l)) /\
  (forall pre, (length pre < cs)%nat ->
     si_load_state cs ss (Some (magic_SI80 ++ le32 1 ++ pre)) l =
       (-1, mk_live (pre ++ drop (length pre) (e8080_bytes l)) (si_state_bytes l)
              (live_mem l))) /\
  (forall c pre, length c = cs -> (length pre < ss)%nat ->
     si_load_state cs ss (Some (magic_SI80 ++ le32 1 ++ c ++ pre)) l =
       (-1, mk_live c (pre ++ drop (length pre) (si_state_bytes l)) (live_mem l))) /\
  (forall c st pre, length c = cs -> length st = ss ->
     (length pre < Z.to_nat SI_RAM_SIZE)%nat ->
     length (ram (live_mem l)) = Z.to_nat SI_RAM_SIZE ->
     si_load_state cs ss (Some (magic_SI80 ++ le32 1 ++ c ++ st ++ pre)) l =
       (-1, mk_live c st
              (mkMem (rom (live_mem l)) (pre ++ drop (length pre) (ram (live_mem l)))))).
Proof.
  split; [reflexivity |]. split; [| split; [| split; [| split; [| split]]]].
  - intros bs Hm. unfold si_load_state, fread_block.
    destruct (decide (4 <= length bs)%nat); [| reflexivity].
    rewrite bool_decide_eq_false_2 by exact Hm. reflexivity.
  - intros rest Hrest. unfold si_load_state.
    rewrite fread_block_app by reflexivity. cbv beta iota.
    rewrite bool_decide_eq_true_2 by reflexivity. cbn [negb].
    unfold fread_block. rewrite decide_False by lia. reflexivity.
  - intros v rest Hv Hval. unfold si_load_state.
    rewrite fread_block_app by reflexivity. cbv beta iota.
    rewrite bool_decide_eq_true_2 by reflexivity. cbn [negb].
    rewrite fread_block_app by exact Hv. cbv beta iota.
    rewrite (proj2 (Z.eqb_neq _ _) Hval). reflexivity.
  - intros pre Hpre. unfold si_load_state.
    rewrite fread_block_app by reflexivity. cbv beta iota.
    rewrite bool_decide_eq_true_2 by reflexivity. cbn [negb].
    rewrite fread_block_app by reflexivity. cbv beta iota.
    change (le32_value (le32 1) =? 1) with true. cbn [negb].
    unfold fread_into at 1. rewrite decide_False by lia. reflexivity.
  - intros c pre Hc Hpre. unfold si_load_state.
    rewrite fread_block_app by reflexivity. cbv beta iota.
    rewrite bool_decide_eq_true_2 by reflexivity. cbn [negb].
    rewrite fread_block_app by reflexivity. cbv beta iota.
    change (le32_value (le32 1) =? 1) with true. cbn [negb].
    rewrite fread_into_app by exact Hc. cbv beta iota. cbn [negb].
    unfold fread_into. rewrite decide_False by lia. reflexivity.
  - intros c st pre Hc Hs Hpre Hr. apply load_state_ram_truncated; assumption.
Qed.

Lemma load_state_failure_witness :
  si_load_state 2 3 (Some (magic_SI80 ++ le32 1 ++ [9]))
    (mk_live [0; 0] [0; 0; 0] zero_mem) =
  (-1, mk_live ([9] ++ drop 1 [0; 0]) [0; 0; 0] zero_mem) /\
  si_load_state 2 3 (Some (magic_SI80 ++ le32 1 ++ [9; 9] ++ [8]))
    (mk_live [0; 0] [0; 0; 0] zero_mem) =
  (-1, mk_live [9; 9] ([8] ++ drop 1 [0; 0; 0]) zero_mem) /\
  si_load_state 2 3 (Some (magic_SI80 ++ le32 1 ++ [9; 9] ++ [8; 8; 8] ++ [7]))
    (mk_live [0; 0] [0; 0; 0] zero_mem) =
  (-1, mk_live [9; 9] [8; 8; 8]
         (mkMem (rom zero_mem) ([7] ++ drop 1 (ram zero_mem)))).
Proof.
  destruct (load_state_failure 2 3 (mk_live [0; 0] [0; 0; 0] zero_mem))
    as [_ [_ [_ [_ [Hcpu [Hst Hram]]]]]].
  split; [apply (Hcpu [9]); cbn; lia |].
  split; [apply (Hst [9; 9] [8]); [reflexivity | cbn; lia] |].
  apply (Hram [9; 9] [8; 8; 8] [7]);
    [reflexivity | reflexivity | apply Nat.ltb_lt; vm_compute; reflexivity | reflexivity].
Defined.

(** C2 (counterexample): for every size of the CPU and emulator-state
    objects, a save file that stops one byte into the RAM section makes
    si_load_state fail after it has replaced the CPU and emulator state and
    written that RAM byte. *)
Lemma load_state_not_atomic_cex :
  ~ (exists cs ss : nat, forall (file : option (list Z)) (l : live),
       (si_load_state cs ss file l).1 = -1 -> (si_load_state cs ss file l).2 = l).
Proof.
  intros [cs [ss H]].
  set (l := mk_live (replicate cs 0) (replicate ss 0) zero_mem).
  set (file := magic_SI80 ++ le32 1 ++ replicate cs 1 ++ replicate ss 1 ++ [1]).
  assert (E : si_load_state cs ss (Some file) l =
     (-1, mk_live (replicate cs 1) (replicate ss 1)
            (mkMem (rom zero_mem) ([1] ++ drop 1 (ram zero_mem))))).
  { apply load_state_ram_truncated;
      [apply length_replicate | apply length_replicate |
       apply Nat.ltb_lt; vm_compute; reflexivity | reflexivity]. }
  specialize (H (Some file) l). rewrite E in H. cbn in H.
  specialize (H eq_refl).
  apply (f_equal (fun x => head (ram (live_mem x)))) in H.
  vm_compute in H. discriminate H.
Qed.

(* ------------------------------------------------------------------ *)
(* Further operations of space_invaders_core.c                         *)
(* ------------------------------------------------------------------ *)

(* uint32_t si_get_score(void) *)
Definition si_get_score (m : Mem) : Z :=
  let bcd_lsb := readByte m 0x20F8 in
  let bcd_msb := readByte m 0x20F9 in
  Z.shiftr bcd_msb 4 * 1000 + Z.land bcd_msb 0x0F * 100 +
  Z.shiftr bcd_lsb 4 * 10 + Z.land bcd_lsb 0x0F.

(* bool si_is_game_over(void) *)
Definition si_is_game_over (w : machine) : bool :=
  let ships_remaining := readByte (mem w) 0x21FF in
  let player_alive := readByte (mem w) 0x20E7 in
  halt (cpu w) || ((player_alive =? 0) && (ships_remaining =? 0)).

(* int si_get_level(void): uint32_t frame_count / 3600 + 1 *)
Definition si_get_level (s : si_state_t) : Z := frame_count s / 3600 + 1.

(* void si_set_dip_switches(uint8_t dip0, uint8_t dip1, uint8_t dip2) *)
Definition si_set_dip_switches (s : si_state_t) (dip0 dip1 dip2 : Z) : si_state_t :=
  let c := config s in
  set_config s (mk_config (headless c) (speed_multiplier c) (uncapped c)
                  (<[2%nat := dip2]> (<[1%nat := dip1]> (<[0%nat := dip0]> (dip_switches c))))).

(* void si_set_uncapped(bool uncapped) *)
Definition si_set_uncapped (s : si_state_t) (u : bool) : si_state_t :=
  let c := config s in
  set_config s (mk_config (headless c) (speed_multiplier c) u (dip_switches c)).


(** X1: with the offset in 0-7, port 3 reads the 16-bit shift register
    shifted left by the offset, then its top 8 bits. *)
Theorem port3_read_formula (s : si_state_t) :
  0 <= shift_offset s <= 7 ->
  si_port_in s 3 = Z.land (Z.shiftr (Z.shiftl (shift_reg s) (shift_offset s)) 8) 0xFF.
Proof.
  intros Hk. unfold si_port_in; simpl. f_equal.
  rewrite !Z.shiftr_div_pow2, Z.shiftl_mul_pow2 by lia.
  replace (2 ^ 8) with (2 ^ (8 - shift_offset s) * 2 ^ shift_offset s)
    by (rewrite <- Z.pow_add_r by lia; f_equal; lia).
  rewrite Z.div_mul_cancel_r by (apply Z.pow_nonzero; lia). reflexivity.
Qed.

Lemma port3_read_formula_witness :
  si_port_in (set_shift_offset (set_shift_reg init_state 0xABCD) 3) 3 =
  Z.land (Z.shiftr (Z.shiftl 0xABCD 3) 8) 0xFF.
Proof. apply (port3_read_formula (set_shift_offset (set_shift_reg init_state 0xABCD) 3)). cbn. lia. Defined.

Lemma lor_shiftl_byte (a b : Z) : 0 <= a < 256 -> Z.lor a (Z.shiftl b 8) = a + b * 256.
Proof.
  intros Ha.
  assert (Hd : Z.land a (Z.shiftl b 8) = 0).
  { apply Z.bits_inj'. intros i Hi. rewrite Z.land_spec, Z.bits_0.
    destruct (Z.lt_ge_cases i 8).
    - rewrite Z.shiftl_spec_low by lia. apply andb_false_r.
    - rewrite (Z.bits_above_log2 a i); [reflexivity | lia |].
      destruct (Z.eq_dec a 0) as [-> | Hn]; [simpl; lia |].
      assert (Z.log2 a < 8) by (apply Z.log2_lt_pow2; lia). lia. }
  rewrite <- Z.lxor_lor by exact Hd. rewrite <- Z.add_nocarry_lxor by exact Hd.
  rewrite Z.shiftl_mul_pow2 by lia. reflexivity.
Qed.

(** X2: two writes to port 4 leave exactly the two written bytes in the
    16-bit shift register, the second one high: the earlier content is
    flushed. *)
Theorem shift_two_writes (s : si_state_t) (v1 v2 : Z) :
  0 <= shift_reg s < 2 ^ 16 -> 0 <= v1 <= 255 -> 0 <= v2 <= 255 ->
  shift_reg (si_port_out (si_port_out s 4 v1) 4 v2) = v2 * 256 + v1.
Proof.
  intros Hr H1 H2. unfold si_port_out; simpl.
  assert (E1 : Z.land v1 0xFFFF = v1) by (apply (land_small v1 16); lia).
  assert (E2 : Z.land v2 0xFFFF = v2) by (apply (land_small v2 16); lia).
  rewrite E1, E2. change 0xFFFF with (Z.ones 16).
  assert (Ho : 0 <= Z.shiftr (shift_reg s) 8 < 256).
  { rewrite Z.shiftr_div_pow2 by lia. split; [apply Z.div_pos; lia |].
    apply Z.div_lt_upper_bound; lia. }
  rewrite (lor_shiftl_byte (Z.shiftr (shift_reg s) 8) v1 Ho).
  rewrite (land_small (Z.shiftr (shift_reg s) 8 + v1 * 256) 16) by lia.
  assert (Hs : Z.shiftr (Z.shiftr (shift_reg s) 8 + v1 * 256) 8 = v1).
  { rewrite Z.shiftr_div_pow2 by lia. change (2 ^ 8) with 256.
    rewrite Z.div_add by lia. rewrite Z.div_small by lia. lia. }
  rewrite Hs, (lor_shiftl_byte v1 v2) by lia.
  rewrite (land_small (v1 + v2 * 256) 16) by lia. lia.
Qed.

Lemma shift_two_writes_witness :
  shift_reg (si_port_out (si_port_out init_state 4 0x12) 4 0x34) = 0x34 * 256 + 0x12.
Proof. apply shift_two_writes; cbn; lia. Defined.





(** X5: after si_set_dip_switches(d0, d1, d2) on the three-byte DIP array,
    port 0 reads d0 and port 2 reads d2, and no port read depends on d1. *)
Theorem dip_switches_ports (s : si_state_t) (d0 d1 d1' d2 : Z) :
  length (dip_switches (config s)) = 3%nat ->
  si_port_in (si_set_dip_switches s d0 d1 d2) 0 = d0 /\
  si_port_in (si_set_dip_switches s d0 d1 d2) 2 = d2 /\
  (forall p, si_port_in (si_set_dip_switches s d0 d1 d2) p =
             si_port_in (si_set_dip_switches s d0 d1' d2) p).
Proof.
  intros Hl. destruct s as [sb r o i f c ini [h sp u dips]]; cbn in Hl |- *.
  destruct dips as [| a [| b [| e [| ? ?]]]]; cbn in Hl; try lia.
  split; [reflexivity | split; [reflexivity |]].
  intros p. unfold si_port_in; cbn. reflexivity.
Qed.

Lemma dip_switches_ports_witness :
  si_port_in (si_set_dip_switches init_state 1 2 3) 0 = 1 /\
  si_port_in (si_set_dip_switches init_state 1 2 3) 2 = 3 /\
  (forall p, si_port_in (si_set_dip_switches init_state 1 2 3) p =
             si_port_in (si_set_dip_switches init_state 1 9 3) p).
Proof. apply dip_switches_ports. reflexivity. Defined.

(** X6: after si_set_input(b), the program reading port 1 sees
    (b & 0x77) | 0x08: bit 3 is always set and bit 7 always clear. *)
Theorem port1_after_set_input (s : si_state_t) (b : Z) :
  si_port_in (si_set_input s b) 1 = Z.lor (Z.land b 0x77) 0x08 /\
  Z.testbit (si_port_in (si_set_input s b) 1) 3 = true /\
  Z.testbit (si_port_in (si_set_input s b) 1) 7 = false.
Proof.
  split; [reflexivity |]. change (si_port_in (si_set_input s b) 1)
    with (Z.lor (Z.land b 0x77) 0x08).
  rewrite !Z.lor_spec, !Z.land_spec. cbn.
  rewrite !andb_false_r, orb_true_r. split; reflexivity.
Qed.

(** X7: with BCD digits d3 d2 in the score's high byte (0x20F9) and d1 d0
    in its low byte (0x20F8), si_get_score returns the decimal number
    d3 d2 d1 d0; e.g. bytes 0x01, 0x23 give 123. *)
Theorem score_bcd (m : Mem) (d0 d1 d2 d3 : Z) :
  length (ram m) = Z.to_nat SI_RAM_SIZE ->
  0 <= d0 <= 9 -> 0 <= d1 <= 9 -> 0 <= d2 <= 9 -> 0 <= d3 <= 9 ->
  si_get_score (writeByte (16 * d3 + d2) 0x20F9 (writeByte (16 * d1 + d0) 0x20F8 m)) =
    1000 * d3 + 100 * d2 + 10 * d1 + d0.
Proof.
  intros Hl H0 H1 H2 H3. unfold si_get_score; cbv zeta.
  rewrite (readByte_writeByte_ne _ _ 0x20F9 0x20F8) by lia.
  rewrite (readByte_writeByte_eq m _ 0x20F8) by (exact Hl || ram_addr_tac).
  rewrite (readByte_writeByte_eq _ _ 0x20F9)
    by (ram_addr_tac || (rewrite length_writeByte; exact Hl)).
  assert (Hd : forall hi lo, 0 <= lo < 16 ->
            Z.shiftr (16 * hi + lo) 4 = hi /\ Z.land (16 * hi + lo) 0x0F = lo).
  { intros hi lo Hlo. split.
    - rewrite Z.shiftr_div_pow2 by lia. change (2 ^ 4) with 16.
      rewrite Z.mul_comm, Z.div_add_l by lia. rewrite Z.div_small by lia. lia.
    - change 0x0F with (Z.ones 4). rewrite Z.land_ones by lia. change (2 ^ 4) with 16.
      rewrite Z.mul_comm, Z.add_comm, Z.mod_add by lia. apply Z.mod_small. lia. }
  destruct (Hd d3 d2) as [-> ->]; [lia |]. destruct (Hd d1 d0) as [-> ->]; [lia |]. lia.
Qed.

Lemma score_bcd_witness :
  si_get_score (writeByte (16 * 0 + 1) 0x20F9 (writeByte (16 * 2 + 3) 0x20F8 zero_mem)) =
    1000 * 0 + 100 * 1 + 10 * 2 + 3.
Proof. apply score_bcd; [reflexivity | lia | lia | lia | lia]. Defined.

(** X8: si_is_game_over holds exactly when the CPU is halted or
    si_get_lives reports 0 from a raw count (reserve + alive) of at most 6;
    a lives reading of 0 from a count above 6 is not game over. *)
Theorem game_over_iff_lives (w : machine) :
  0 <= readByte (mem w) 0x21FF ->
  si_is_game_over w = true <->
  halt (cpu w) = true \/
  (si_get_lives (mem w) = 0 /\
   readByte (mem w) 0x21FF + (if readByte (mem w) 0x20E7 =? 0 then 0 else 1) <= 6).
Proof.
  intros Hs. unfold si_is_game_over, si_get_lives.
  destruct (halt (cpu w)); cbn; [split; auto |].
  set (r := readByte (mem w) 0x21FF) in *. set (a := readByte (mem w) 0x20E7).
  rewrite andb_true_iff, !Z.eqb_eq.
  rewrite Z.gtb_ltb.
  destruct (Z.eqb_spec a 0);
    [destruct (Z.ltb_spec 6 (r + 0)) | destruct (Z.ltb_spec 6 (r + 1))];
    split; intros Hg; try lia;
    destruct Hg as [Hg | Hg]; try discriminate; lia.
Qed.

Lemma game_over_iff_lives_witness :
  si_is_game_over boot_machine = true <->
  halt (cpu boot_machine) = true \/
  (si_get_lives (mem boot_machine) = 0 /\
   readByte (mem boot_machine) 0x21FF +
     (if readByte (mem boot_machine) 0x20E7 =? 0 then 0 else 1) <= 6).
Proof. apply game_over_iff_lives. vm_compute. discriminate. Defined.

(* ------------------------------------------------------------------ *)
(* Further observations, counters and the reset state                 *)
(* ------------------------------------------------------------------ *)

(* uint8_t si_get_player_x(void), si_get_player_y(void) *)
Definition si_get_player_x (m : Mem) : Z := readByte m 0x201B.
Definition si_get_player_y (m : Mem) : Z := readByte m 0x201A.

(* bool si_get_player_alive(void) *)
Definition si_get_player_alive (m : Mem) : bool := negb (readByte m 0x20E7 =? 0).

(* void si_get_alien_grid(uint8_t *grid): the 55 bytes written to grid. *)
Definition si_get_alien_grid (m : Mem) : list Z :=
  map (fun i => readByte m (0x2100 + Z.of_nat i)) (seq 0 55).

(* uint8_t si_get_alien_count(void) *)
Definition si_get_alien_count (m : Mem) : Z := readByte m 0x2082.

Section Counters.

Variable emulate8080 : machine -> Z -> machine * Z.
Variable causeInt : cpu8080 -> Mem -> Z -> cpu8080 * Mem.
Hypothesis emulate8080_counters : forall w n,
  frame_count (si (emulate8080 w n).1) = frame_count (si w) /\
  cycle_count (si (emulate8080 w n).1) = cycle_count (si w).

(* int si_step_cycles(int cycles) *)
Definition si_step_cycles (w : machine) (cycles : Z) : machine * Z :=
  let '(w1, executed) := emulate8080 w cycles in
  let s := si w1 in
  let s' := mk_state (screen_buf s) (shift_reg s) (shift_offset s) (input_state s)
              (frame_count s) (Z.modulo (cycle_count s + executed) (2 ^ 64))
              (initialized s) (config s) in
  (mk_machine (cpu w1) s' (mem w1), executed).

Lemma step_frame_frame_count (w : machine) :
  frame_count (si (si_step_frame emulate8080 causeInt w).1.1) =
    (frame_count (si w) + 1) mod 2 ^ 32.
Proof.
  unfold si_step_frame.
  destruct (emulate8080 w 17066) as [w1 c1] eqn:E1.
  destruct (emulate8080_counters w 17066) as [F1 _]. rewrite E1 in F1. simpl in F1.
  destruct (emulate8080 (interrupt causeInt w1 8) 17066) as [w3 c2] eqn:E3.
  destruct (emulate8080_counters (interrupt causeInt w1 8) 17066) as [F3 _].
  rewrite E3 in F3. simpl in F3.
  unfold interrupt in F3 |- *.
  destruct (causeInt (cpu w1) (mem w1) 8) as [ca ma].
  destruct (causeInt (cpu w3) (mem w3) 16) as [cb mb]. simpl in F3 |- *.
  rewrite F3, F1. reflexivity.
Qed.

Lemma step_cycles_counters (w : machine) (n : Z) :
  frame_count (si (si_step_cycles w n).1) = frame_count (si w) /\
  cycle_count (si (si_step_cycles w n).1) =
    (cycle_count (si w) + (si_step_cycles w n).2) mod 2 ^ 64.
Proof.
  unfold si_step_cycles.
  destruct (emulate8080_counters w n) as [F K].
  destruct (emulate8080 w n) as [w1 e]. simpl in F, K |- *.
  rewrite F, K. split; reflexivity.
Qed.

End Counters.

Lemma div3600_succ (n : Z) :
  0 <= n -> (n + 1) / 3600 = n / 3600 + (if (n + 1) mod 3600 =? 0 then 1 else 0).
Proof.
  intros Hn.
  pose proof (Z.div_mod n 3600 ltac:(lia)) as Hd.
  pose proof (Z.mod_pos_bound n 3600 ltac:(lia)) as Hb.
  set (q := n / 3600) in *. set (r := n mod 3600) in *.
  destruct (Z.eq_dec r 3599) as [Hr | Hr].
  - replace (n + 1) with ((q + 1) * 3600) by lia.
    rewrite Z.div_mul, Z.mod_mul by lia. reflexivity.
  - replace (n + 1) with ((r + 1) + q * 3600) by lia.
    rewrite Z.div_add, Z.mod_add by lia.
    rewrite Z.div_small, Z.mod_small by lia.
    destruct (Z.eqb_spec (r + 1) 0); lia.
Qed.

(** X9: below the uint32 wrap, one si_step_frame raises si_get_level by 1
    exactly when the new frame count is a multiple of 3600, and leaves it
    unchanged otherwise. *)
Theorem step_frame_level
    (emulate8080 : machine -> Z -> machine * Z)
    (causeInt : cpu8080 -> Mem -> Z -> cpu8080 * Mem)
    (Hcount : forall w n,
       frame_count (si (emulate8080 w n).1) = frame_count (si w) /\
       cycle_count (si (emulate8080 w n).1) = cycle_count (si w))
    (w : machine) :
  0 <= frame_count (si w) < 2 ^ 32 - 1 ->
  si_get_level (si (si_step_frame emulate8080 causeInt w).1.1) =
    si_get_level (si w) + (if (frame_count (si w) + 1) mod 3600 =? 0 then 1 else 0).
Proof.
  intros Hf. unfold si_get_level.
  rewrite (step_frame_frame_count emulate8080 causeInt Hcount w).
  rewrite Z.mod_small by lia. rewrite div3600_succ by lia. lia.
Qed.

Lemma idle_counters (w : machine) (n : Z) :
  frame_count (si (idle_emulate w n).1) = frame_count (si w) /\
  cycle_count (si (idle_emulate w n).1) = cycle_count (si w).
Proof. split; reflexivity. Qed.

(** A machine 3599 frames into the game. *)
Definition machine_at_frame (n : Z) : machine :=
  mk_machine (cpu boot_machine)
    (mk_state [] 0 0 0x08 n 0 true default_config) (mem boot_machine).

Lemma step_frame_level_witness :
  0 <= frame_count (si (machine_at_frame 3599)) < 2 ^ 32 - 1 /\
  si_get_level (si (si_step_frame idle_emulate idle_causeInt (machine_at_frame 3599)).1.1) =
    si_get_level (si (machine_at_frame 3599)) +
      (if (frame_count (si (machine_at_frame 3599)) + 1) mod 3600 =? 0 then 1 else 0).
Proof.
  split; [cbn; lia |].
  apply (step_frame_level idle_emulate idle_causeInt idle_counters). cbn; lia.
Defined.

(** X10: the uint32 frame counter wraps: a step from frame count
    2^32 - 1 brings si_get_level back to 1, from 1193047. *)
Theorem step_frame_level_wrap
    (emulate8080 : machine -> Z -> machine * Z)
    (causeInt : cpu8080 -> Mem -> Z -> cpu8080 * Mem)
    (Hcount : forall w n,
       frame_count (si (emulate8080 w n).1) = frame_count (si w) /\
       cycle_count (si (emulate8080 w n).1) = cycle_count (si w))
    (w : machine) :
  frame_count (si w) = 2 ^ 32 - 1 ->
  si_get_level (si w) = 1193047 /\
  si_get_level (si (si_step_frame emulate8080 causeInt w).1.1) = 1.
Proof.
  intros Hf. unfold si_get_level.
  rewrite (step_frame_frame_count emulate8080 causeInt Hcount w), Hf.
  split; reflexivity.
Qed.

Lemma step_frame_level_wrap_witness :
  si_get_level (si (machine_at_frame (2 ^ 32 - 1))) = 1193047 /\
  si_get_level (si (si_step_frame idle_emulate idle_causeInt
                      (machine_at_frame (2 ^ 32 - 1))).1.1) = 1.
Proof.
  apply (step_frame_level_wrap idle_emulate idle_causeInt idle_counters). reflexivity.
Defined.

(** X11: two si_step_cycles calls add both executed counts to the uint64
    cycle counter (wrapping once, at the end, is the same as wrapping after
    each call) and never touch the frame counter. *)
Theorem step_cycles_accumulate
    (emulate8080 : machine -> Z -> machine * Z)
    (Hcount : forall w n,
       frame_count (si (emulate8080 w n).1) = frame_count (si w) /\
       cycle_count (si (emulate8080 w n).1) = cycle_count (si w))
    (w : machine) (n1 n2 : Z) :
  let r1 := si_step_cycles emulate8080 w n1 in
  let r2 := si_step_cycles emulate8080 r1.1 n2 in
  frame_count (si r2.1) = frame_count (si w) /\
  cycle_count (si r2.1) = (cycle_count (si w) + r1.2 + r2.2) mod 2 ^ 64.
Proof.
  cbv zeta.
  destruct (step_cycles_counters emulate8080 Hcount w n1) as [F1 K1].
  destruct (step_cycles_counters emulate8080 Hcount (si_step_cycles emulate8080 w n1).1 n2)
    as [F2 K2].
  rewrite F2, F1, K2, K1. split; [reflexivity |].
  rewrite Zplus_mod_idemp_l. reflexivity.
Qed.

Lemma step_cycles_accumulate_witness :
  let r1 := si_step_cycles idle_emulate (machine_at_frame 5) 100 in
  let r2 := si_step_cycles idle_emulate r1.1 200 in
  frame_count (si r2.1) = frame_count (si (machine_at_frame 5)) /\
  cycle_count (si r2.1) = (cycle_count (si (machine_at_frame 5)) + r1.2 + r2.2) mod 2 ^ 64.
Proof. apply (step_cycles_accumulate idle_emulate idle_counters). Defined.

Lemma mem_ext (m1 m2 : Mem) : rom m1 = rom m2 -> ram m1 = ram m2 -> m1 = m2.
Proof. destruct m1, m2; cbn; congruence. Qed.

Lemma si_reset_ram (w : machine) :
  length (ram (mem w)) = Z.to_nat SI_RAM_SIZE ->
  ram (mem (si_reset w)) = replicate (Z.to_nat SI_RAM_SIZE) 0.
Proof.
  intros Hl. apply list_eq. intros j. unfold si_reset. cbn [mem].
  replace SI_RAM_START with (SI_RAM_START + Z.of_nat 0) by lia.
  rewrite clear_ram_lookup by lia.
  destruct (decide (0 <= j < 0 + Z.to_nat SI_RAM_SIZE)%nat) as [Hj | Hj].
  - rewrite (proj2 (lookup_replicate _ 0 0 j)) by (split; [reflexivity | lia]).
    destruct (lookup_lt_is_Some_2 (ram (mem w)) j) as [x Hx]; [lia |].
    rewrite Hx. reflexivity.
  - rewrite (proj1 (lookup_replicate_None _ 0 j)) by lia.
    apply lookup_ge_None_2. lia.
Qed.

Lemma readByte_zero_ram (m : Mem) (a : Z) :
  ram m = replicate (Z.to_nat SI_RAM_SIZE) 0 -> ram_addr a -> readByte m a = 0.
Proof.
  intros Hr Ha. unfold ram_addr in Ha. unfold readByte. rewrite Hr.
  rewrite (proj2 (Z.ltb_ge a ROM_SIZE)) by (unfold ROM_SIZE, SI_RAM_START in *; lia).
  rewrite andb_false_r.
  rewrite (proj2 (Z.leb_le SI_RAM_START a)) by lia.
  rewrite (proj2 (Z.ltb_lt a (SI_RAM_START + SI_RAM_SIZE))) by lia.
  cbn [andb]. rewrite lookup_replicate_2 by (unfold SI_RAM_START, SI_RAM_SIZE in *; lia).
  reflexivity.
Qed.

(** X12: right after si_reset every observation reads the cleared RAM:
    score 0, no lives, game over, player dead at position 0, no aliens, no
    active shot or UFO; port 1 reads the idle latch 0x08, the shift
    register reads 0 and the level is 1. *)
Theorem reset_observations (w : machine) (x y : option Z) :
  length (ram (mem w)) = Z.to_nat SI_RAM_SIZE ->
  let w' := si_reset w in
  si_get_score (mem w') = 0 /\ si_get_lives (mem w') = 0 /\
  si_is_game_over w' = true /\
  si_get_player_alive (mem w') = false /\
  si_get_player_x (mem w') = 0 /\ si_get_player_y (mem w') = 0 /\
  si_get_alien_count (mem w') = 0 /\ si_get_alien_grid (mem w') = replicate 55 0 /\
  si_get_ufo_active (mem w') x y = (false, x, y) /\
  (si_get_player_shot (mem w') x y).1.1 = 0 /\
  (si_get_rolling_shot (mem w') x y).1.1 = 0 /\
  (si_get_plunger_shot (mem w') x y).1.1 = 0 /\
  (si_get_squiggly_shot (mem w') x y).1.1 = 0 /\
  si_port_in (si w') 1 = 0x08 /\ si_port_in (si w') 3 = 0 /\
  si_get_level (si w') = 1.
Proof.
  intros Hl w'.
  assert (Z0 : forall a, ram_addr a -> readByte (mem w') a = 0).
  { intros a Ha. apply readByte_zero_ram; [apply si_reset_ram, Hl | exact Ha]. }
  unfold si_get_score, si_get_lives, si_is_game_over, si_get_player_alive,
    si_get_player_x, si_get_player_y, si_get_alien_count, si_get_alien_grid,
    si_get_ufo_active, si_get_player_shot, si_get_rolling_shot,
    si_get_plunger_shot, si_get_squiggly_shot, alien_shot.
  rewrite !Z0 by ram_addr_tac.
  split; [reflexivity |]. split; [reflexivity |]. split; [reflexivity |].
  split; [reflexivity |]. split; [reflexivity |]. split; [reflexivity |].
  split; [reflexivity |]. split.
  { erewrite map_ext_in with (g := fun _ => 0); [reflexivity |].
    intros i Hi. apply in_seq in Hi. apply Z0. unfold ram_addr, SI_RAM_START, SI_RAM_SIZE.
    lia. }
  repeat split; reflexivity.
Qed.

Lemma reset_observations_witness :
  let w' := si_reset boot_machine in
  si_get_score (mem w') = 0 /\ si_get_lives (mem w') = 0 /\
  si_is_game_over w' = true /\
  si_get_player_alive (mem w') = false /\
  si_get_player_x (mem w') = 0 /\ si_get_player_y (mem w') = 0 /\
  si_get_alien_count (mem w') = 0 /\ si_get_alien_grid (mem w') = replicate 55 0 /\
  si_get_ufo_active (mem w') None None = (false, None, None) /\
  (si_get_player_shot (mem w') None None).1.1 = 0 /\
  (si_get_rolling_shot (mem w') None None).1.1 = 0 /\
  (si_get_plunger_shot (mem w') None None).1.1 = 0 /\
  (si_get_squiggly_shot (mem w') None None).1.1 = 0 /\
  si_port_in (si w') 1 = 0x08 /\ si_port_in (si w') 3 = 0 /\
  si_get_level (si w') = 1.
Proof. apply (reset_observations boot_machine None None). reflexivity. Defined.

(** X13: si_reset is idempotent: resetting a machine that was just reset
    changes nothing (CPU, emulator state and both banks). *)
Theorem si_reset_idempotent (w : machine) :
  length (ram (mem w)) = Z.to_nat SI_RAM_SIZE ->
  si_reset (si_reset w) = si_reset w.
Proof.
  intros Hl.
  assert (Hm : mem (si_reset (si_reset w)) = mem (si_reset w)).
  { apply mem_ext.
    - unfold si_reset at 1. cbn [mem]. apply clear_ram_rom.
    - rewrite (si_reset_ram (si_reset w)); [rewrite si_reset_ram by exact Hl; reflexivity |].
      rewrite si_reset_ram by exact Hl. apply length_replicate. }
  transitivity (mk_machine (cpu (si_reset w)) (si (si_reset w)) (mem (si_reset (si_reset w)))).
  - reflexivity.
  - rewrite Hm. reflexivity.
Qed.

Lemma si_reset_idempotent_witness :
  si_reset (si_reset boot_machine) = si_reset boot_machine.
Proof. apply si_reset_idempotent. reflexivity. Defined.

(** A whole RAM section r (then anything): the loop succeeds, having
    written r at its indices. *)
Lemma load_ram_full (r rest : list Z) (i : nat) (m0 : Mem) :
  (i + length r <= Z.to_nat SI_RAM_SIZE)%nat ->
  length (ram m0) = Z.to_nat SI_RAM_SIZE ->
  let res := load_ram (length r) (SI_RAM_START + Z.of_nat i) (r ++ rest) m0 in
  res.1 = true /\ rom res.2 = rom m0 /\
  (forall j : nat, ram res.2 !! j =
     if decide (i <= j < i + length r)%nat then r !! (j - i)%nat else ram m0 !! j).
Proof.
  revert i m0. induction r as [| b r IH]; intros i m0 Hn Hl res.
  { subst res. cbn. split; [reflexivity | split; [reflexivity |]].
    intros j. destruct (decide _); [lia | reflexivity]. }
  subst res. cbn [load_ram length app].
  replace (SI_RAM_START + Z.of_nat i + 1) with (SI_RAM_START + Z.of_nat (S i)) by lia.
  rewrite writeByte_ram_index by (cbn in Hn; lia).
  destruct (IH (S i) (mkMem (rom m0) (<[i := b]> (ram m0))))
    as [Hok [Hrom Hlk]]; [cbn in Hn; lia | cbn; rewrite length_insert; exact Hl |].
  split; [exact Hok | split; [exact Hrom |]].
  intros j. rewrite Hlk. cbn [ram length]. rewrite list_lookup_insert.
  destruct (decide (i = j)) as [<- | Hij].
  - rewrite (decide_False (P := (S i <= i < S i + length r)%nat)) by lia.
    rewrite (decide_True (P := (i <= i < i + S (length r))%nat)) by lia.
    rewrite Nat.sub_diag.
    rewrite decide_True by (split; [reflexivity | cbn in Hn; lia]). reflexivity.
  - rewrite (decide_False (P := (i = j /\ (i < length (ram m0))%nat))) by tauto.
    destruct (decide (S i <= j < S i + length r)%nat),
             (decide (i <= j < i + S (length r))%nat); try lia; [| reflexivity].
    replace (j - i)%nat with (S (j - S i)) by lia. reflexivity.
Qed.

(** X14: a file with the SI80 header, version 1, whole CPU and emulator
    sections c and st and a whole 0x2000-byte RAM section r loads with
    status 0, installing c, st and r (ROM untouched), whatever bytes
    follow the RAM section: trailing data is never read. *)
Theorem load_state_trailing (cs ss : nat) (l : live) (c st r extra : list Z) :
  length c = cs -> length st = ss -> length r = Z.to_nat SI_RAM_SIZE ->
  length (ram (live_mem l)) = Z.to_nat SI_RAM_SIZE ->
  si_load_state cs ss (Some (magic_SI80 ++ le32 1 ++ c ++ st ++ r ++ extra)) l =
    (0, mk_live c st (mkMem (rom (live_mem l)) r)).
Proof.
  intros Hc Hs Hr Hl. unfold si_load_state.
  rewrite fread_block_app by reflexivity. cbv beta iota.
  rewrite bool_decide_eq_true_2 by reflexivity. cbn [negb].
  rewrite fread_block_app by reflexivity. cbv beta iota.
  change (le32_value (le32 1) =? 1) with true. cbn [negb].
  rewrite fread_into_app by exact Hc. cbv beta iota. cbn [negb].
  rewrite fread_into_app by exact Hs. cbv beta iota. cbn [negb live_mem].
  pose proof (load_ram_full r extra 0 (live_mem l)) as H.
  replace (SI_RAM_START + Z.of_nat 0) with SI_RAM_START in H by lia.
  rewrite Hr in H.
  destruct H as [Hok [Hrom Hlk]]; [lia | exact Hl |].
  destruct (load_ram _ _ _ _) as [ok m'] eqn:E. cbn in Hok, Hrom, Hlk. subst ok.
  do 2 f_equal. apply mem_ext; [exact Hrom |]. cbn.
  apply list_eq. intros j. rewrite Hlk.
  destruct (decide (0 <= j < Z.to_nat SI_RAM_SIZE)%nat).
  - rewrite Nat.sub_0_r. reflexivity.
  - rewrite (proj2 (lookup_ge_None _ _)) by lia. symmetry.
    apply lookup_ge_None_2. lia.
Qed.

Lemma load_state_trailing_witness :
  si_load_state 1 2 (Some (magic_SI80 ++ le32 1 ++ [7] ++ [8; 9] ++
                           replicate (Z.to_nat SI_RAM_SIZE) 5 ++ [1; 2; 3]))
    (mk_live [] [] zero_mem) =
  (0, mk_live [7] [8; 9] (mkMem (rom zero_mem) (replicate (Z.to_nat SI_RAM_SIZE) 5))).
Proof.
  apply load_state_trailing; [reflexivity | reflexivity | apply length_replicate |
                              reflexivity].
Defined.

Lemma save_ram_slice (n i : nat) (m : Mem) :
  (i + n <= Z.to_nat SI_RAM_SIZE)%nat -> length (ram m) = Z.to_nat SI_RAM_SIZE ->
  save_ram n (SI_RAM_START + Z.of_nat i) m = take n (drop i (ram m)).
Proof.
  revert i. induction n as [| n IH]; intros i Hn Hl; [reflexivity |].
  cbn [save_ram].
  replace (SI_RAM_START + Z.of_nat i + 1) with (SI_RAM_START + Z.of_nat (S i)) by lia.
  rewrite readByte_ram_index by lia. rewrite IH by lia.
  destruct (lookup_lt_is_Some_2 (ram m) i) as [x Hx]; [lia |].
  rewrite Hx, (drop_S _ _ _ Hx). reflexivity.
Qed.

(** X15: the blob si_save_state writes is the SI80 magic, the version 1
    as a little-endian uint32, the CPU bytes, the emulator-state bytes and
    the RAM bank verbatim, 8 + sizeof(e8080) + sizeof(si_state) + 0x2000
    bytes in all. *)
Theorem save_state_layout (l : live) :
  length (ram (live_mem l)) = Z.to_nat SI_RAM_SIZE ->
  si_save_state l =
    [0x53; 0x49; 0x38; 0x30] ++ [1; 0; 0; 0] ++ e8080_bytes l ++ si_state_bytes l ++
    ram (live_mem l) /\
  length (si_save_state l) =
    (8 + length (e8080_bytes l) + length (si_state_bytes l) + Z.to_nat SI_RAM_SIZE)%nat.
Proof.
  intros Hl.
  assert (Hs : save_ram (Z.to_nat SI_RAM_SIZE) SI_RAM_START (live_mem l) = ram (live_mem l)).
  { replace SI_RAM_START with (SI_RAM_START + Z.of_nat 0) by lia.
    rewrite save_ram_slice by lia. rewrite drop_0, <- Hl. apply take_ge. lia. }
  unfold si_save_state. rewrite Hs. split; [reflexivity |].
  rewrite !length_app, Hl. cbn [length magic_SI80 le32]. lia.
Qed.

Lemma save_state_layout_witness :
  si_save_state (mk_live [1] [2] zero_mem) =
    [0x53; 0x49; 0x38; 0x30] ++ [1; 0; 0; 0] ++ [1] ++ [2] ++ ram zero_mem /\
  length (si_save_state (mk_live [1] [2] zero_mem)) =
    (8 + length [1] + length [2] + Z.to_nat SI_RAM_SIZE)%nat.
Proof. apply (save_state_layout (mk_live [1] [2] zero_mem)). reflexivity. Defined.

(* ------------------------------------------------------------------ *)
(* Display access                                                      *)
(* ------------------------------------------------------------------ *)

Definition SI_SCREEN_WIDTH : Z := 256.
Definition SI_SCREEN_HEIGHT : Z := 224.
Definition SI_VRAM_START : Z := 0x2400.
Definition SI_VRAM_END : Z := 0x4000.

(* Byte stores bs at p, p+1, ... of a byte buffer. *)
Fixpoint store_bytes (p : nat) (bs buf : list Z) : list Z :=
  match bs with
  | [] => buf
  | b :: bs' => store_bytes (S p) bs' (<[p := b]> buf)
  end.

(* *(uint32_t * )(buf + p) = v on the little-endian target. *)
Definition store32 (buf : list Z) (p : nat) (v : Z) : list Z := store_bytes p (le32 v) buf.

(* A uint32_t read from buf + p. *)
Definition read32 (buf : list Z) (p : nat) : Z := le32_value (take 4 (drop p buf)).

(* ((b >> k) & 1) ? 0xFFFFFFFF : 0xFF000000 *)
Definition pixel_of (b k : Z) : Z :=
  if negb (Z.land (Z.shiftr b k) 1 =? 0) then 0xFFFFFFFF else 0xFF000000.

(* The while loop of si_update_framebuffer: vram_addr from SI_VRAM_START,
   screen_ptr at byte offset ptr; it runs SI_VRAM_END - SI_VRAM_START
   times. *)
Fixpoint fb_loop (fuel : nat) (vram_addr : Z) (ptr : nat) (m : Mem) (buf : list Z) :
    list Z :=
  match fuel with
  | O => buf
  | S fuel' =>
    if vram_addr <? SI_VRAM_END then
      let b := readByte m vram_addr in
      let buf := store32 buf ptr (pixel_of b 0) in
      let buf := store32 buf (ptr + 4) (pixel_of b 1) in
      let buf := store32 buf (ptr + 8) (pixel_of b 2) in
      let buf := store32 buf (ptr + 12) (pixel_of b 3) in
      let buf := store32 buf (ptr + 16) (pixel_of b 4) in
      let buf := store32 buf (ptr + 20) (pixel_of b 5) in
      let buf := store32 buf (ptr + 24) (pixel_of b 6) in
      let buf := store32 buf (ptr + 28) (pixel_of b 7) in
      fb_loop fuel' (vram_addr + 1) (ptr + 32) m buf
    else buf
  end.

(* void si_update_framebuffer(void) *)
Definition si_update_framebuffer (s : si_state_t) (m : Mem) : si_state_t :=
  mk_state (fb_loop (Z.to_nat (SI_VRAM_END - SI_VRAM_START)) SI_VRAM_START 0 m (screen_buf s))
    (shift_reg s) (shift_offset s) (input_state s) (frame_count s) (cycle_count s)
    (initialized s) (config s).

(* void si_get_framebuffer_grayscale(uint8_t *buffer): None is NULL; a
   buffer gets its first SI_SCREEN_WIDTH * SI_SCREEN_HEIGHT bytes written. *)
Definition si_get_framebuffer_grayscale (s : si_state_t) (buffer : option (list Z)) :
    option (list Z) :=
  match buffer with
  | None => None
  | Some old =>
    let n := Z.to_nat (SI_SCREEN_WIDTH * SI_SCREEN_HEIGHT) in
    Some (((fun i => if Z.land (read32 (screen_buf s) (4 * i)) 0x00FFFFFF =? 0 then 0 else 255)
             <$> seq 0 n) ++ drop n old)
  end.

(** The 32 framebuffer bytes of one VRAM byte: its 8 pixels, bit 0 first. *)
Definition vram_pixels (m : Mem) (addr : Z) : list Z :=
  concat (map (fun k => le32 (if Z.testbit (readByte m addr) (Z.of_nat k)
                              then 0xFFFFFFFF else 0xFF000000)) (seq 0 8)).

Lemma pixel_of_testbit (b k : Z) :
  0 <= k -> pixel_of b k = if Z.testbit b k then 0xFFFFFFFF else 0xFF000000.
Proof.
  intros Hk. unfold pixel_of.
  change (Z.land (Z.shiftr b k) 1) with (Z.land (Z.shiftr b k) (Z.ones 1)).
  rewrite Z.land_ones, Zmod_odd by lia.
  rewrite <- Z.bit0_odd, Z.shiftr_spec, Z.add_0_l by lia.
  destruct (Z.testbit b k); reflexivity.
Qed.

Lemma length_store_bytes (p : nat) (bs buf : list Z) :
  length (store_bytes p bs buf) = length buf.
Proof.
  revert p buf. induction bs as [| b bs IH]; intros p buf; [reflexivity |].
  cbn. rewrite IH. apply length_insert.
Qed.

Lemma store_bytes_spec (p : nat) (bs buf : list Z) :
  (p + length bs <= length buf)%nat ->
  store_bytes p bs buf = take p buf ++ bs ++ drop (p + length bs) buf.
Proof.
  revert p buf. induction bs as [| b bs IH]; intros p buf Hl; cbn [store_bytes length] in *.
  { rewrite Nat.add_0_r. symmetry. apply take_drop. }
  rewrite IH by (rewrite length_insert; lia).
  rewrite (take_S_r _ _ b) by (apply list_lookup_insert_eq; lia).
  rewrite take_insert_ge by lia.
  rewrite drop_insert_lt by lia.
  replace (p + S (length bs))%nat with (S p + length bs)%nat by lia.
  rewrite <- app_assoc. reflexivity.
Qed.

Lemma store_bytes_app (p q : nat) (xs ys buf : list Z) :
  q = (p + length xs)%nat ->
  store_bytes q ys (store_bytes p xs buf) = store_bytes p (xs ++ ys) buf.
Proof.
  intros ->. revert p buf. induction xs as [| x xs IH]; intros p buf; cbn.
  - rewrite Nat.add_0_r. reflexivity.
  - rewrite <- IH. f_equal. lia.
Qed.

Lemma fb_body (ptr : nat) (a : Z) (m : Mem) (buf : list Z) :
  let b := readByte m a in
  store32 (store32 (store32 (store32 (store32 (store32 (store32 (store32 buf
    ptr (pixel_of b 0)) (ptr + 4) (pixel_of b 1)) (ptr + 8) (pixel_of b 2))
    (ptr + 12) (pixel_of b 3)) (ptr + 16) (pixel_of b 4)) (ptr + 20) (pixel_of b 5))
    (ptr + 24) (pixel_of b 6)) (ptr + 28) (pixel_of b 7) =
  store_bytes ptr (vram_pixels m a) buf.
Proof.
  cbv zeta. unfold store32.
  rewrite !store_bytes_app by (cbn [length le32]; lia).
  unfold vram_pixels. cbn [seq map concat]. rewrite app_nil_r.
  rewrite !pixel_of_testbit by lia. reflexivity.
Qed.

Lemma length_vram_pixels (m : Mem) (a : Z) : length (vram_pixels m a) = 32%nat.
Proof. reflexivity. Qed.

Lemma fb_loop_spec (n : nat) (a : Z) (ptr : nat) (m : Mem) (buf : list Z) :
  a + Z.of_nat n <= SI_VRAM_END -> (ptr + 32 * n <= length buf)%nat ->
  fb_loop n a ptr m buf =
    take ptr buf ++ concat (map (fun i => vram_pixels m (a + Z.of_nat i)) (seq 0 n)) ++
    drop (ptr + 32 * n) buf.
Proof.
  revert a ptr buf. induction n as [| n IH]; intros a ptr buf Ha Hl.
  { cbn [fb_loop seq map concat app]. replace (ptr + 32 * 0)%nat with ptr by lia.
    symmetry. apply take_drop. }
  cbn [fb_loop]. rewrite (proj2 (Z.ltb_lt a SI_VRAM_END)) by lia.
  rewrite fb_body. rewrite store_bytes_spec by (rewrite length_vram_pixels; lia).
  rewrite length_vram_pixels.
  rewrite IH by (lia || (rewrite !length_app, length_take, length_drop,
                          length_vram_pixels; lia)).
  assert (Ht : length (take ptr buf) = ptr) by (rewrite length_take; lia).
  rewrite (take_app_add' _ _ ptr 32) by (symmetry; exact Ht).
  rewrite take_app_length' by (symmetry; apply length_vram_pixels).
  replace (ptr + 32 + 32 * n)%nat with (ptr + (32 + 32 * n))%nat by lia.
  rewrite (drop_app_add' _ _ ptr) by (symmetry; exact Ht).
  rewrite (drop_app_add' _ _ 32) by (symmetry; apply length_vram_pixels).
  rewrite drop_drop.
  cbn [seq map concat]. rewrite <- seq_shift, map_map.
  rewrite <- !app_assoc. rewrite Z.add_0_r. f_equal. f_equal. f_equal.
  - apply (f_equal (@concat Z)). apply map_ext. intros i. f_equal. lia.
  - f_equal. lia.
Qed.

Lemma length_concat_blocks (h : nat -> list Z) (L s n : nat) :
  (forall i, length (h i) = L) -> length (concat (map h (seq s n))) = (n * L)%nat.
Proof.
  intros HL. revert s. induction n as [| n IH]; intros s; [reflexivity |].
  cbn [seq map concat]. rewrite length_app, IH, HL. lia.
Qed.

Lemma drop_concat_blocks (h : nat -> list Z) (L s n k : nat) :
  (forall i, length (h i) = L) -> (k < n)%nat ->
  exists rest, drop (k * L) (concat (map h (seq s n))) = h (s + k)%nat ++ rest.
Proof.
  intros HL. revert s k. induction n as [| n IH]; intros s k Hk; [lia |].
  cbn [seq map concat]. destruct k as [| k].
  - exists (concat (map h (seq (S s) n))). rewrite Nat.add_0_r. reflexivity.
  - destruct (IH (S s) k) as [rest Hr]; [lia |]. exists rest.
    replace (S k * L)%nat with (length (h s) + k * L)%nat by (rewrite HL; lia).
    rewrite drop_app_add, Hr. do 2 f_equal. lia.
Qed.

(** Every pixel of the updated framebuffer, read back as a uint32. *)
Lemma fb_read32 (s : si_state_t) (m : Mem) (k : nat) :
  length (screen_buf s) = Z.to_nat (SI_SCREEN_WIDTH * SI_SCREEN_HEIGHT * 4) ->
  (k < Z.to_nat (SI_SCREEN_WIDTH * SI_SCREEN_HEIGHT))%nat ->
  read32 (screen_buf (si_update_framebuffer s m)) (4 * k) =
    if Z.testbit (readByte m (SI_VRAM_START + Z.of_nat (k / 8))) (Z.of_nat (k mod 8))
    then 0xFFFFFFFF else 0xFF000000.
Proof.
  intros Hl Hk. unfold si_update_framebuffer, read32. cbn [screen_buf].
  rewrite fb_loop_spec
    by (rewrite ?Hl; unfold SI_VRAM_END, SI_VRAM_START, SI_SCREEN_WIDTH, SI_SCREEN_HEIGHT; lia).
  rewrite take_0, app_nil_l.
  pose proof (Nat.div_mod k 8 ltac:(lia)) as Hd.
  pose proof (Nat.mod_upper_bound k 8 ltac:(lia)) as Hr.
  set (q := (k / 8)%nat) in *. set (r := (k mod 8)%nat) in *.
  assert (Hq : (q < Z.to_nat (SI_VRAM_END - SI_VRAM_START))%nat)
    by (unfold SI_VRAM_END, SI_VRAM_START, SI_SCREEN_WIDTH, SI_SCREEN_HEIGHT in *; lia).
  replace (4 * k)%nat with (q * 32 + r * 4)%nat by lia.
  rewrite <- drop_drop.
  destruct (drop_concat_blocks (fun i => vram_pixels m (SI_VRAM_START + Z.of_nat i))
              32 0 _ q (fun i => length_vram_pixels m _) Hq) as [rest Hrest].
  rewrite drop_app_le
    by (rewrite (length_concat_blocks _ 32) by (intros; apply length_vram_pixels);
        unfold SI_VRAM_END, SI_VRAM_START in *; lia).
  rewrite Hrest, <- app_assoc. rewrite drop_app_le by (rewrite length_vram_pixels; lia).
  unfold vram_pixels at 1.
  destruct (drop_concat_blocks
              (fun k0 => le32 (if Z.testbit (readByte m (SI_VRAM_START + Z.of_nat (0 + q)))
                                               (Z.of_nat k0)
                               then 0xFFFFFFFF else 0xFF000000))
              4 0 8 r (fun i => eq_refl) Hr) as [rest' Hrest'].
  rewrite Hrest', <- !app_assoc, take_app_length' by reflexivity.
  cbn [Nat.add]. destruct (Z.testbit _ _); reflexivity.
Qed.

(** X16: after si_update_framebuffer the 229376-byte ARGB framebuffer
    holds, for each of the 256 x 224 pixels k, the uint32 0xFFFFFFFF when
    bit k mod 8 of VRAM byte 0x2400 + k / 8 is set and 0xFF000000
    otherwise; its length is unchanged. *)
Theorem framebuffer_pixels (s : si_state_t) (m : Mem) :
  length (screen_buf s) = Z.to_nat (SI_SCREEN_WIDTH * SI_SCREEN_HEIGHT * 4) ->
  length (screen_buf (si_update_framebuffer s m)) = length (screen_buf s) /\
  forall k : nat, (k < Z.to_nat (SI_SCREEN_WIDTH * SI_SCREEN_HEIGHT))%nat ->
    read32 (screen_buf (si_update_framebuffer s m)) (4 * k) =
      if Z.testbit (readByte m (SI_VRAM_START + Z.of_nat (k / 8))) (Z.of_nat (k mod 8))
      then 0xFFFFFFFF else 0xFF000000.
Proof.
  intros Hl. split.
  - unfold si_update_framebuffer. cbn [screen_buf].
    rewrite fb_loop_spec
    by (rewrite ?Hl; unfold SI_VRAM_END, SI_VRAM_START, SI_SCREEN_WIDTH, SI_SCREEN_HEIGHT; lia).
    rewrite !length_app, length_take, length_drop.
    rewrite (length_concat_blocks _ 32) by (intros; apply length_vram_pixels).
    rewrite Hl. unfold SI_VRAM_END, SI_VRAM_START, SI_SCREEN_WIDTH, SI_SCREEN_HEIGHT. lia.
  - intros k Hk. apply fb_read32; assumption.
Qed.

(** A state whose framebuffer is its full 256 x 224 x 4 bytes. *)
Definition state_with_screen : si_state_t :=
  mk_state (replicate (Z.to_nat (SI_SCREEN_WIDTH * SI_SCREEN_HEIGHT * 4)) 0)
    0 0 0x08 0 0 true default_config.

Lemma framebuffer_pixels_witness :
  length (screen_buf (si_update_framebuffer state_with_screen zero_mem)) =
    length (screen_buf state_with_screen) /\
  forall k : nat, (k < Z.to_nat (SI_SCREEN_WIDTH * SI_SCREEN_HEIGHT))%nat ->
    read32 (screen_buf (si_update_framebuffer state_with_screen zero_mem)) (4 * k) =
      if Z.testbit (readByte zero_mem (SI_VRAM_START + Z.of_nat (k / 8))) (Z.of_nat (k mod 8))
      then 0xFFFFFFFF else 0xFF000000.
Proof. apply framebuffer_pixels. apply length_replicate. Defined.

(** X17: after si_update_framebuffer, si_get_framebuffer_grayscale writes
    255 for pixel k when bit k mod 8 of VRAM byte 0x2400 + k / 8 is set and
    0 otherwise, over the first 256 x 224 bytes of the buffer; given NULL
    it writes nothing. *)
Theorem grayscale_pixels (s : si_state_t) (m : Mem) :
  length (screen_buf s) = Z.to_nat (SI_SCREEN_WIDTH * SI_SCREEN_HEIGHT * 4) ->
  si_get_framebuffer_grayscale (si_update_framebuffer s m) None = None /\
  forall buf : list Z, exists g,
    si_get_framebuffer_grayscale (si_update_framebuffer s m) (Some buf) = Some g /\
    forall k : nat, (k < Z.to_nat (SI_SCREEN_WIDTH * SI_SCREEN_HEIGHT))%nat ->
      g !! k = Some (if Z.testbit (readByte m (SI_VRAM_START + Z.of_nat (k / 8)))
                                  (Z.of_nat (k mod 8))
                     then 255 else 0).
Proof.
  intros Hl. split; [reflexivity |]. intros buf.
  eexists. split; [reflexivity |]. intros k Hk.
  rewrite lookup_app_l by (rewrite length_fmap, length_seq; exact Hk).
  rewrite list_lookup_fmap, lookup_seq_lt by exact Hk. cbn [fmap option_fmap option_map].
  rewrite Nat.add_0_l, fb_read32 by assumption.
  destruct (Z.testbit _ _); reflexivity.
Qed.

Lemma grayscale_pixels_witness :
  si_get_framebuffer_grayscale (si_update_framebuffer state_with_screen zero_mem) None = None /\
  forall buf : list Z, exists g,
    si_get_framebuffer_grayscale (si_update_framebuffer state_with_screen zero_mem)
      (Some buf) = Some g /\
    forall k : nat, (k < Z.to_nat (SI_SCREEN_WIDTH * SI_SCREEN_HEIGHT))%nat ->
      g !! k = Some (if Z.testbit (readByte zero_mem (SI_VRAM_START + Z.of_nat (k / 8)))
                                  (Z.of_nat (k mod 8))
                     then 255 else 0).
Proof. apply grayscale_pixels. apply length_replicate. Defined.

(* ------------------------------------------------------------------ *)
(* Initialization and teardown                                         *)
(* ------------------------------------------------------------------ *)

(* memset(&si_state, 0, sizeof(si_state)) *)
Definition zero_state : si_state_t :=
  mk_state (replicate (Z.to_nat (SI_SCREEN_WIDTH * SI_SCREEN_HEIGHT * 4)) 0) 0 0 0 0 0 false
    (mk_config false 0%float false [0; 0; 0]).

(* void si_destroy(void) *)
Definition si_destroy (s : si_state_t) : si_state_t := zero_state.

(* The values e8080.portIn = si_port_in and e8080.portOut = si_port_out
   store: the two handlers' addresses. *)
Definition si_port_in_addr : Z := 1.
Definition si_port_out_addr : Z := 2.

(* The ROM loop of si_init_with_config: file i (None when fopen fails) is
   fread into rom_buf + i * 0x0800, at most 0x0800 bytes; a short read
   ends the loop with failure. *)
Fixpoint load_roms (i : nat) (files : list (option (list Z))) (rom_buf : list Z) :
    bool * list Z :=
  match files with
  | [] => (true, rom_buf)
  | None :: _ => (false, rom_buf)
  | Some bs :: files' =>
    let bytes_read := take (Z.to_nat 0x0800) bs in
    let rom_buf' := store_bytes (i * Z.to_nat 0x0800) bytes_read rom_buf in
    if Nat.eqb (length bytes_read) (Z.to_nat 0x0800) then load_roms (S i) files' rom_buf'
    else (false, rom_buf')
  end.

(* A registered bank of the address space (8080Memory, not in the
   sources): base address, length, read-only flag. *)
Definition bank : Type := (Z * Z * bool)%type.

(* The region [base, base + length) meets the bank's region. *)
Definition overlaps (base length : Z) (bk : bank) : bool :=
  let '(b, len, _) := bk in (base <? b + len) && (b <? base + length).

(** Modelled from the spec: register_bank(base, length, NULL, read_only)
    fails (NULL) when the region overlaps a registered bank; otherwise it
    registers the bank and hands out its new zero-filled buffer. *)
Definition registerBank (banks : list bank) (base length : Z) (read_only : bool) :
    option (list Z * list bank) :=
  if existsb (overlaps base length) banks then None
  else Some (replicate (Z.to_nat length) 0, banks ++ [(base, length, read_only)]).

(* int si_init_with_config(rom_h, rom_g, rom_f, rom_e, config): the
   status, the machine afterwards and the registered banks afterwards. *)
Definition si_init_with_config (banks : list bank) (rom_h rom_g rom_f rom_e : option (list Z))
    (config_p : option si_config_t) (w : machine) : Z * machine * list bank :=
  let s0 := zero_state in
  let s1 := match config_p with Some c => set_config s0 c | None => s0 end in
  let c0 := reset8080 0x0001 in
  match registerBank banks 0x0000 (4 * 0x0800) true with
  | None => (-1, mk_machine c0 s1 (mem w), banks)
  | Some (rom_buf, banks1) =>
    let '(ok, rom_buf1) := load_roms 0 [rom_h; rom_g; rom_f; rom_e] rom_buf in
    if negb ok then (-1, mk_machine c0 s1 (mkMem rom_buf1 (ram (mem w))), banks1) else
    let rom_buf2 := <[0%nat := 0xC3]> rom_buf1 in
    match registerBank banks1 SI_RAM_START SI_RAM_SIZE false with
    | None => (-1, mk_machine c0 s1 (mkMem rom_buf2 (ram (mem w))), banks1)
    | Some (ram_buf, banks2) =>
      let c1 := with_pointers c0 (cpu_ram c0) si_port_in_addr si_port_out_addr in
      let s2 := mk_state (screen_buf s1) 0x0000 0 0x08 0 0 true (config s1) in
      (0, mk_machine c1 s2 (mkMem rom_buf2 ram_buf), banks2)
    end
  end.

(* int si_init(rom_h, rom_g, rom_f, rom_e) *)
Definition si_init (banks : list bank) (rom_h rom_g rom_f rom_e : option (list Z))
    (w : machine) : Z * machine * list bank :=
  si_init_with_config banks rom_h rom_g rom_f rom_e (Some default_config) w.

(* int si_api_init_headless(..., const uint8_t *dip_switches): None is
   NULL, Some (d0, d1, d2) the array's three bytes. *)
Definition si_api_init_headless (banks : list bank) (rom_h rom_g rom_f rom_e : option (list Z))
    (dip_switches_p : option (Z * Z * Z)) (w : machine) : Z * machine * list bank :=
  let dips := match dip_switches_p with
              | Some (d0, d1, d2) => [d0; d1; d2]
              | None => [0x0E; 0x08; 0x00]
              end in
  si_init_with_config banks rom_h rom_g rom_f rom_e
    (Some (mk_config true 0%float true dips)) w.




Lemma registerBank_free (banks : list bank) (base length : Z) (read_only : bool) :
  existsb (overlaps base length) banks = false ->
  registerBank banks base length read_only =
    Some (replicate (Z.to_nat length) 0, banks ++ [(base, length, read_only)]).
Proof. intros H. unfold registerBank. rewrite H. reflexivity. Qed.

Lemma registerBank_taken (banks : list bank) (base length : Z) (read_only : bool) :
  existsb (overlaps base length) banks = true -> registerBank banks base length read_only = None.
Proof. intros H. unfold registerBank. rewrite H. reflexivity. Qed.




Definition rom_file_2k : list Z := replicate (Z.to_nat 0x0800) 0x76.


(** X20: after si_init, whatever the ROM files and the registered banks,
    port 0 reads the default DIP byte 0x0E and port 2 reads 0x00; port 1
    reads the idle latch 0x08 when the init succeeded and 0 when it failed
    (the cleared state); the configuration is the default one (not
    headless, speed 1.0, capped). *)
Theorem init_default_ports (banks : list bank) (rom_h rom_g rom_f rom_e : option (list Z))
    (w : machine) :
  let r := si_init banks rom_h rom_g rom_f rom_e w in
  si_port_in (si r.1.2) 0 = 0x0E /\ si_port_in (si r.1.2) 2 = 0x00 /\
  si_port_in (si r.1.2) 1 = (if r.1.1 =? 0 then 0x08 else 0) /\
  config (si r.1.2) = default_config.
Proof.
  cbv zeta. unfold si_init, si_init_with_config.
  destruct (registerBank banks _ _ _) as [[rb banks1] |]; [| repeat split].
  destruct (load_roms _ _ _) as [[|] rb1]; [| repeat split].
  destruct (registerBank banks1 _ _ _) as [[rb2 banks2] |]; repeat split.
Qed.

(** X21: si_api_init_headless configures headless, uncapped, speed 0.0
    with the DIP bytes of the given array, or 0x0E, 0x08, 0x00 for NULL:
    port 0 reads the first, port 2 the third, whatever the ROM files and
    the registered banks, and whether or not the init succeeds. *)
Theorem init_headless_config (banks : list bank) (rom_h rom_g rom_f rom_e : option (list Z))
    (dips : option (Z * Z * Z)) (w : machine) :
  let r := si_api_init_headless banks rom_h rom_g rom_f rom_e dips w in
  headless (config (si r.1.2)) = true /\ uncapped (config (si r.1.2)) = true /\
  speed_multiplier (config (si r.1.2)) = 0%float /\
  si_port_in (si r.1.2) 0 = match dips with Some (d0, _, _) => d0 | None => 0x0E end /\
  si_port_in (si r.1.2) 2 = match dips with Some (_, _, d2) => d2 | None => 0x00 end.
Proof.
  cbv zeta. unfold si_api_init_headless, si_init_with_config.
  destruct dips as [[[d0 d1] d2] |];
    (destruct (registerBank banks _ _ _) as [[rb banks1] |]; [| repeat split];
     destruct (load_roms _ _ _) as [[|] rb1]; [| repeat split];
     destruct (registerBank banks1 _ _ _) as [[rb2 banks2] |]; repeat split).
Qed.

(** X23: a second initialization on the address space a successful one
    left behind fails with -1, whatever its ROM files and configuration:
    the ROM region is already registered (si_destroy does not unregister
    banks, so this holds after si_destroy too). *)
Theorem init_twice_fails (banks : list bank) (rom_h rom_g rom_f rom_e : option (list Z))
    (config_p : option si_config_t) (w : machine)
    (rom_h' rom_g' rom_f' rom_e' : option (list Z)) (config_p' : option si_config_t)
    (w' : machine) :
  let r := si_init_with_config banks rom_h rom_g rom_f rom_e config_p w in
  r.1.1 = 0 ->
  (si_init_with_config r.2 rom_h' rom_g' rom_f' rom_e' config_p' w').1.1 = -1.
Proof.
  cbv zeta. intros H0.
  assert (Hin : In (0x0000, 4 * 0x0800, true)
                  (si_init_with_config banks rom_h rom_g rom_f rom_e config_p w).2).
  { revert H0. unfold si_init_with_config.
    destruct (existsb (overlaps 0x0000 (4 * 0x0800)) banks) eqn:E1;
      [rewrite registerBank_taken by exact E1; discriminate |
       rewrite registerBank_free by exact E1]; cbv iota beta.
    destruct (load_roms _ _ _) as [[|] rb1]; cbn [negb fst snd]; [| discriminate].
    destruct (existsb (overlaps SI_RAM_START SI_RAM_SIZE)
                (banks ++ [(0x0000, 4 * 0x0800, true)])) eqn:E2;
      [rewrite registerBank_taken by exact E2; discriminate |
       rewrite registerBank_free by exact E2]; cbn [fst snd].
    intros _. apply in_or_app. left. apply in_or_app. right. left. reflexivity. }
  set (b := (si_init_with_config banks rom_h rom_g rom_f rom_e config_p w).2) in *.
  unfold si_init_with_config at 1.
  rewrite registerBank_taken; [reflexivity |].
  apply existsb_exists. exists (0x0000, 4 * 0x0800, true). split; [exact Hin |].
  reflexivity.
Qed.

Lemma init_twice_fails_witness :
  (si_init_with_config [] (Some rom_file_2k) (Some rom_file_2k) (Some rom_file_2k)
     (Some rom_file_2k) None boot_machine).1.1 = 0 /\
  (si_init_with_config
     (si_init_with_config [] (Some rom_file_2k) (Some rom_file_2k) (Some rom_file_2k)
        (Some rom_file_2k) None boot_machine).2
     (Some rom_file_2k) (Some rom_file_2k) (Some rom_file_2k) (Some rom_file_2k)
     None boot_machine).1.1 = -1.
Proof.
  assert (H : (si_init_with_config [] (Some rom_file_2k) (Some rom_file_2k) (Some rom_file_2k)
                 (Some rom_file_2k) None boot_machine).1.1 = 0).
  { vm_compute. reflexivity. }
  split; [exact H |].
  apply (init_twice_fails [] _ _ _ _ None boot_machine). exact H.
Defined.

(** X22: after si_destroy the state is cleared: not initialized, every
    port reads 0 (port 1 included: bit 3 of the latch is clear, unlike
    after si_reset), both counters are zero and the level is 1. *)
Theorem destroy_state (s : si_state_t) :
  initialized (si_destroy s) = false /\
  (forall port, si_port_in (si_destroy s) port = 0) /\
  frame_count (si_destroy s) = 0 /\ cycle_count (si_destroy s) = 0 /\
  si_get_level (si_destroy s) = 1.
Proof.
  split; [reflexivity |]. split; [| repeat split].
  intros port. unfold si_port_in.
  destruct (port =? 0); [reflexivity |]. destruct (port =? 1); [reflexivity |].
  destruct (port =? 2); [reflexivity |]. destruct (port =? 3); reflexivity.
Qed.
